(** * Suncity application form: the field-layout renderers

    A shallow embedding of the three rendering paths of the repository:

    - [Preview]: the on-screen preview page (the React component
      [PreviewPage] with its local functions [renderCharacterBoxes],
      [renderApplicantForm] and [renderApartmentForm]);
    - [HtmlRenderer]: [src/lib/html-renderer.ts], the server-side document
      renderer ([renderCharacterBoxesHTML], [renderSignatureFooterHTML],
      [renderApplicantFormHTML], [renderApartmentFormHTML]);
    - [HtmlRendererCompact]: the second copy of the document renderer, the
      one whose constants are named [APPLICANT_*] and [APARTMENT_*].

    The renderers produce markup.  The embedding keeps the part of the markup
    that carries data: which blocks are produced, the content of every
    character cell, the width given to a row of cells, which check boxes are
    ticked, which signature slots appear.  Fixed texts and colours are left
    out. *)

From Stdlib Require Import String Ascii.
From Stdlib Require Import Qround Qminmax.
From Stdlib Require Import NArith ZArith QArith Bool Lia Arith List.
Import ListNotations.

Set Implicit Arguments.

(** ** JavaScript strings and the few built-ins the renderers call *)

Module Js.

(** A JavaScript string is a sequence of UTF-16 code units; [split('')] and
    the regular-expression dot (without the [u] flag) both work on code
    units. *)
Definition codeunit := N.
Definition jsstring := list codeunit.

(** An ASCII literal of the source as a [jsstring]. *)
Definition lit (s : string) : jsstring :=
  map N_of_ascii (list_ascii_of_string s).

(** A field of a parsed JSON object: [None] stands for [undefined] or [null]. *)
Definition field := option jsstring.

(** Truthiness of a string-or-undefined value: only a non-empty string is
    truthy. *)
Definition truthy (v : field) : bool :=
  match v with
  | Some (_ :: _) => true
  | _ => false
  end.

(** [v || ''] *)
Definition orEmpty (v : field) : jsstring :=
  match v with
  | Some (c :: s) => c :: s
  | _ => []
  end.

(** [a === b] on strings. *)
Fixpoint streq (a b : jsstring) : bool :=
  match a, b with
  | [], [] => true
  | x :: a', y :: b' => N.eqb x y && streq a' b'
  | _, _ => false
  end.

(** [v === 'literal'] where [v] may be [undefined]. *)
Definition field_is (v : field) (l : jsstring) : bool :=
  match v with
  | Some s => streq s l
  | None => false
  end.

(** [s.split('')]: one single-unit string per code unit. *)
Definition split_chars (s : jsstring) : list jsstring :=
  map (fun c => [c]) s.

(** [a.slice(0, n)] for a count [n >= 0]. *)
Definition slice0 (A : Type) (n : nat) (a : list A) : list A := firstn n a.

(** [a[i] || ''] on an array of strings: out of range gives [undefined],
    which [||] replaces by the empty string, as it does an empty string. *)
Definition index_or_empty (a : list jsstring) (i : nat) : jsstring :=
  match nth_error a i with
  | Some (c :: s) => c :: s
  | _ => []
  end.

(** [Array.from({ length: n }, (_, i) => f i)] *)
Definition array_from (A : Type) (n : nat) (f : nat -> A) : list A :=
  map f (seq 0 n).

(** Line terminators: the characters the regular-expression dot refuses
    (LF, CR, U+2028, U+2029). *)
Definition isLineTerminator (c : codeunit) : bool :=
  (N.eqb c 10 || N.eqb c 13 || N.eqb c 8232 || N.eqb c 8233)%bool.

(** White space as [String.prototype.trim] understands it: the WhiteSpace
    and LineTerminator productions of the language. *)
Definition isWhiteSpace (c : codeunit) : bool :=
  (N.eqb c 9 || N.eqb c 11 || N.eqb c 12 || N.eqb c 32 || N.eqb c 160
   || N.eqb c 5760 || (N.leb 8192 c && N.leb c 8202)
   || N.eqb c 8239 || N.eqb c 8287 || N.eqb c 12288 || N.eqb c 65279
   || isLineTerminator c)%bool.

Fixpoint trimStart (s : jsstring) : jsstring :=
  match s with
  | [] => []
  | c :: s' => if isWhiteSpace c then trimStart s' else s
  end.

Definition trim (s : jsstring) : jsstring :=
  rev (trimStart (rev (trimStart s))).

(** The greedy scan behind [s.match(/.{1,c}/g)]: [cur] is the match being
    grown, [room] how many more units it may take.  A line terminator ends
    the current match and is skipped (no match can start on it); a full
    match ends and the next unit starts a new one. *)
Definition flush (cur : jsstring) (rest : list jsstring) : list jsstring :=
  match cur with
  | [] => rest
  | _ :: _ => cur :: rest
  end.

Fixpoint scan (c : nat) (cur : jsstring) (room : nat) (s : jsstring)
  : list jsstring :=
  match s with
  | [] => flush cur []
  | x :: s' =>
      if isLineTerminator x then flush cur (scan c [] c s')
      else match room with
           | O => flush cur (scan c [x] (pred c) s')
           | S room' => scan c (cur ++ [x]) room' s'
           end
  end.

(** [s.match(/.{1,c}/g) || []] for [c >= 1]: [match] gives [null] when
    nothing matches, which [||] replaces by the empty array. *)
Definition match_chunks (c : nat) (s : jsstring) : list jsstring :=
  scan c [] c s.

(** [s.replace(/[R,]/g, '')] where [R] is the rupee sign U+20B9. *)
Definition rupee : codeunit := 8377%N.
Definition comma : codeunit := 44%N.

Definition isRupeeOrComma (c : codeunit) : bool :=
  (N.eqb c rupee || N.eqb c comma)%bool.

Definition replace_rupee_comma (s : jsstring) : jsstring :=
  filter (fun c => negb (isRupeeOrComma c)) s.

End Js.

Import Js.

(** ** The data the renderers read

    The declarations of [FormData] and [ApplicantData] ([lib/types]) are not
    among the sources; the records below have the fields the renderers read,
    each a string that may be missing. *)

Record ApplicantData := {
  title : field;
  name : field;
  sonWifeDaughterOf : field;
  nationality : field;
  age : field;
  dob : field;
  profession : field;
  aadhaar : field;
  residentialStatus : field;
  pan : field;
  itWard : field;
  correspondenceAddress : field;
  telNo : field;
  phone : field;
  email : field;
  photograph : field;
  signature : field
}.

Record FormData := {
  applicants : list ApplicantData;
  tower : field;
  apartmentNumber : field;
  bhkType : field;
  floor : field;
  carpetAreaSqm : field;
  carpetAreaSqft : field;
  unitPrice : field;
  totalPrice : field;
  declarationDate : field;
  declarationPlace : field
}.

(** [formData.applicants[i]]: [None] is [undefined]. *)
Definition applicant_at (formData : FormData) (i : nat) : option ApplicantData :=
  nth_error (applicants formData) i.

(** [formData.applicants[i]?.signature] *)
Definition signature_at (formData : FormData) (i : nat) : field :=
  match applicant_at formData i with
  | Some a => signature a
  | None => None
  end.

(** ** What is rendered *)

(** A row of character cells: the style of the row container and of its
    cells (in px), and the text of every cell.  A length is an exact
    rational: it is the number the source computes wherever the source's
    double arithmetic is exact, as it is for box widths of a whole number of
    px while the results stay below 2^53 (every call of the renderers passes
    12 or 20); the statements about widths below are made on that domain. *)
Record CharacterBoxes := {
  rowWidth : option Q;      (* width, min-width and max-width of the row, when set *)
  rowGap : Q;
  rowWraps : bool;
  cellWidth : Q;
  cellHeight : Q;
  cellBorder : Q;
  cells : list jsstring
}.

(** One slot of the signature footer. *)
Inductive SignatureSlot :=
| SlotImage (caption : option string) (src : jsstring)
| SlotPlaceholder (text : string).

Definition Footer := list SignatureSlot.

Inductive Heading :=
| SoleOrFirstApplicant
| JointApplicant (k : Z).

Inductive Photo :=
| PhotoImage (src : jsstring)
| PhotoPlaceholder.

(** The residential-status check boxes, in the order of the form. *)
Record ResidentialBoxes := {
  residentChecked : bool;
  nonResidentChecked : bool;
  foreignNationalChecked : bool
}.

Definition checkedCount (b : ResidentialBoxes) : nat :=
  (if residentChecked b then 1 else 0)
  + (if nonResidentChecked b then 1 else 0)
  + (if foreignNationalChecked b then 1 else 0).

Record ApplicantBlock := {
  blockNumber : Z;
  heading : Heading;
  titleNameRow : CharacterBoxes;
  sonWifeDaughterOfRow : CharacterBoxes;
  nationalityRow : CharacterBoxes;
  ageRow : CharacterBoxes;
  dobRow : CharacterBoxes;
  professionRow : CharacterBoxes;
  aadhaarRow : CharacterBoxes;
  residentialBoxes : ResidentialBoxes;
  panRow : CharacterBoxes;
  itWardRows : list CharacterBoxes;
  addressRows : list CharacterBoxes;
  telNoRow : CharacterBoxes;
  mobileRow : CharacterBoxes;
  emailRow : CharacterBoxes;
  photo : Photo;
  footer : option Footer     (* [None]: no footer region in the output *)
}.

(** The three enumerated residential-status values, as the source spells them. *)
Definition RESIDENT : jsstring := lit "Resident".
Definition NON_RESIDENT : jsstring := lit "Non-Resident".
Definition FOREIGN_NATIONAL : jsstring := lit "Foreign National of Indian Origin".

Definition headingOf (applicantNumber : Z) : Heading :=
  if Z.eqb applicantNumber 1 then SoleOrFirstApplicant
  else JointApplicant (applicantNumber - 1).

Definition photoOf (a : ApplicantData) : Photo :=
  if truthy (photograph a) then PhotoImage (orEmpty (photograph a))
  else PhotoPlaceholder.

(** The apartment and declaration block of the document renderers: the text
    put into every value field. *)
Record ApartmentBlock := {
  towerText : jsstring;
  apartmentNumberText : jsstring;
  typeText : jsstring;
  floorText : jsstring;
  carpetAreaSqmText : jsstring;
  carpetAreaSqftText : jsstring;
  unitPriceText : jsstring;
  totalPriceText : jsstring;
  declarationDateText : jsstring;
  declarationPlaceText : jsstring;
  apartmentFooter : option Footer
}.

(** The apartment and declaration block of the preview: every value goes
    into a row of character cells. *)
Record ApartmentPreview := {
  towerCells : CharacterBoxes;
  apartmentNumberCells : CharacterBoxes;
  typeCells : CharacterBoxes;
  floorCells : CharacterBoxes;
  carpetAreaSqmCells : CharacterBoxes;
  carpetAreaSqftCells : CharacterBoxes;
  unitPriceCells : CharacterBoxes;
  totalPriceCells : CharacterBoxes;
  declarationDateCells : CharacterBoxes;
  declarationPlaceCells : CharacterBoxes
}.

(** ** The preview page *)

Module Preview.

(** [renderCharacterBoxes(value, boxCount = 20, boxWidth = 12)] *)
Definition defaultBoxWidth : Q := 12.

Definition renderCharacterBoxes
  (value : field) (boxCount : nat) (boxWidth : Q) : CharacterBoxes :=
  let boxHeight : Q := 24 in
  let borderWidth : Q := 3 # 2 in
  let totalWidth := ((boxWidth + (borderWidth * 2)) * inject_Z (Z.of_nat boxCount))%Q in
  let chars :=
    if truthy value then slice0 boxCount (split_chars (orEmpty value)) else [] in
  {| rowWidth := Some totalWidth;
     rowGap := 0;
     rowWraps := false;
     cellWidth := boxWidth;
     cellHeight := boxHeight;
     cellBorder := borderWidth;
     cells := array_from boxCount (fun i => index_or_empty chars i) |}.

(** The rows of a multi-line field: row [rowIndex] shows
    [(v || '').match(/.{1,20}/g) || [])[rowIndex] || '']. *)
Definition multiLineRows (v : field) (rows : nat) (BOX_WIDTH : Q)
  : list CharacterBoxes :=
  array_from rows (fun rowIndex =>
    let lines := match_chunks 20 (orEmpty v) in
    let lineValue := index_or_empty lines rowIndex in
    renderCharacterBoxes (Some lineValue) 20 BOX_WIDTH).

(** [renderApplicantForm(applicant, applicantNumber)]; [formData] is the
    state of the component, [None] while it is [null].  The result [None]
    is the [null] the function returns. *)
Definition renderApplicantForm
  (formData : option FormData)
  (applicant : option ApplicantData) (applicantNumber : Z)
  : option ApplicantBlock :=
  match applicant with
  | None => None
  | Some a =>
      if (negb (truthy (name a)) && (1 <? applicantNumber)%Z)%bool then None
      else
        let BOX_WIDTH : Q := 20 in
        Some {|
          blockNumber := applicantNumber;
          heading := headingOf applicantNumber;
          titleNameRow :=
            renderCharacterBoxes
              (Some (trim (orEmpty (title a) ++ lit " " ++ orEmpty (name a))))
              20 BOX_WIDTH;
          sonWifeDaughterOfRow :=
            renderCharacterBoxes (Some (orEmpty (sonWifeDaughterOf a))) 20 BOX_WIDTH;
          nationalityRow :=
            renderCharacterBoxes (Some (orEmpty (nationality a))) 20 BOX_WIDTH;
          ageRow := renderCharacterBoxes (Some (orEmpty (age a))) 20 BOX_WIDTH;
          dobRow := renderCharacterBoxes (Some (orEmpty (dob a))) 20 BOX_WIDTH;
          professionRow :=
            renderCharacterBoxes (Some (orEmpty (profession a))) 20 BOX_WIDTH;
          aadhaarRow :=
            renderCharacterBoxes (Some (orEmpty (aadhaar a))) 20 BOX_WIDTH;
          residentialBoxes :=
            {| residentChecked := field_is (residentialStatus a) RESIDENT;
               nonResidentChecked := field_is (residentialStatus a) NON_RESIDENT;
               foreignNationalChecked :=
                 field_is (residentialStatus a) FOREIGN_NATIONAL |};
          panRow := renderCharacterBoxes (Some (orEmpty (pan a))) 20 BOX_WIDTH;
          itWardRows := multiLineRows (itWard a) 2 BOX_WIDTH;
          addressRows := multiLineRows (correspondenceAddress a) 3 BOX_WIDTH;
          telNoRow := renderCharacterBoxes (Some (orEmpty (telNo a))) 20 BOX_WIDTH;
          mobileRow := renderCharacterBoxes (Some (orEmpty (phone a))) 20 BOX_WIDTH;
          emailRow := renderCharacterBoxes (Some (orEmpty (email a))) 20 BOX_WIDTH;
          photo := photoOf a;
          footer :=
            if (applicantNumber =? 1)%Z then
              Some [ (if truthy (signature a)
                      then SlotImage None (orEmpty (signature a))
                      else SlotPlaceholder "Sole/First Applicant");
                     (if truthy (match formData with
                                 | Some fd => signature_at fd 1
                                 | None => None
                                 end)
                      then SlotImage None
                             (orEmpty (match formData with
                                       | Some fd => signature_at fd 1
                                       | None => None
                                       end))
                      else SlotPlaceholder "Second Applicant, if any") ]
            else None
        |}
  end.

(** The unit-type text of the preview:
    [bhkType ? (bhkType === '3bhk' ? '3 BHK' : '4 BHK') : '']. *)
Definition bhkTypeDisplay (formData : FormData) : jsstring :=
  if truthy (bhkType formData)
  then (if field_is (bhkType formData) (lit "3bhk")
        then lit "3 BHK" else lit "4 BHK")
  else [].

(** [v ? v.replace(/[R,]/g, '') : ''] *)
Definition priceClean (v : field) : jsstring :=
  if truthy v then replace_rupee_comma (orEmpty v) else [].

(** [renderApartmentForm()]; the preview puts no signature footer here. *)
Definition renderApartmentForm (formData : option FormData)
  : option ApartmentPreview :=
  match formData with
  | None => None
  | Some fd =>
      Some {|
        towerCells :=
          renderCharacterBoxes (Some (orEmpty (tower fd))) 15 defaultBoxWidth;
        apartmentNumberCells :=
          renderCharacterBoxes (Some (orEmpty (apartmentNumber fd))) 15 defaultBoxWidth;
        typeCells :=
          renderCharacterBoxes (Some (bhkTypeDisplay fd)) 10 defaultBoxWidth;
        floorCells :=
          renderCharacterBoxes (Some (orEmpty (floor fd))) 15 defaultBoxWidth;
        carpetAreaSqmCells :=
          renderCharacterBoxes (Some (orEmpty (carpetAreaSqm fd))) 10 defaultBoxWidth;
        carpetAreaSqftCells :=
          renderCharacterBoxes (Some (orEmpty (carpetAreaSqft fd))) 10 defaultBoxWidth;
        unitPriceCells :=
          renderCharacterBoxes (Some (priceClean (unitPrice fd))) 15 defaultBoxWidth;
        totalPriceCells :=
          renderCharacterBoxes (Some (priceClean (totalPrice fd))) 15 defaultBoxWidth;
        declarationDateCells :=
          renderCharacterBoxes (Some (orEmpty (declarationDate fd))) 10 defaultBoxWidth;
        declarationPlaceCells :=
          renderCharacterBoxes (Some (orEmpty (declarationPlace fd))) 25 defaultBoxWidth
      |}
  end.

(** The applicant count the page keeps: [data.applicantCount || 1]. *)
Definition loadedApplicantCount (stored : option Z) : Z :=
match stored with
| Some 0%Z => 1
| Some n => n
| None => 1
end.

(** What the page shows in place of page [pageNumber] of the PDF. *)
Inductive PageView :=
| StaticPdfPage (pageNumber : Z)
| ApplicantPage (block : option ApplicantBlock)
| ApartmentPage (block : option ApartmentPreview)
| Omitted.

(** [applicants[i] && applicants[i].name] *)
Definition hasNamedApplicant (formData : FormData) (i : nat) : bool :=
  match applicant_at formData i with
  | Some a => truthy (name a)
  | None => false
  end.

(** The body of the loop over the pages of the document; it only runs
    when [formData] is loaded. *)
Definition renderPage (formData : FormData) (applicantCount : Z) (pageNumber : Z)
  : PageView :=
  if (pageNumber <? 5)%Z then StaticPdfPage pageNumber
  else if (pageNumber =? 5)%Z then
    ApplicantPage (renderApplicantForm (Some formData) (applicant_at formData 0) 1)
  else if (pageNumber =? 6)%Z then
    if ((2 <=? applicantCount)%Z && hasNamedApplicant formData 1)%bool
    then ApplicantPage (renderApplicantForm (Some formData) (applicant_at formData 1) 2)
    else Omitted
  else if (pageNumber =? 7)%Z then
    if ((3 <=? applicantCount)%Z && hasNamedApplicant formData 2)%bool
    then ApplicantPage (renderApplicantForm (Some formData) (applicant_at formData 2) 3)
    else Omitted
  else if (pageNumber =? 8)%Z then
    ApartmentPage (renderApartmentForm (Some formData))
  else StaticPdfPage pageNumber.

End Preview.

(** ** The document renderer, [lib/html-renderer.ts]

    A rendering function of this module returns a string; [None] stands for
    the empty string [''], the only result that carries no markup. *)

Module HtmlRenderer.

Definition BOX_WIDTH : Q := 20.
Definition BOX_HEIGHT : Q := 24.
Definition BORDER_WIDTH : Q := 3 # 2.

(** [renderCharacterBoxesHTML(value, boxCount = 20, boxWidth = BOX_WIDTH)] *)
Definition renderCharacterBoxesHTML
  (value : field) (boxCount : nat) (boxWidth : Q) : CharacterBoxes :=
  let chars :=
    if truthy value then slice0 boxCount (split_chars (orEmpty value)) else [] in
  let totalWidth := ((boxWidth + (BORDER_WIDTH * 2)) * inject_Z (Z.of_nat boxCount))%Q in
  let boxes := array_from boxCount (fun i => index_or_empty chars i) in
  {| rowWidth := Some totalWidth;
     rowGap := 0;
     rowWraps := false;
     cellWidth := boxWidth;
     cellHeight := BOX_HEIGHT;
     cellBorder := BORDER_WIDTH;
     cells := boxes |}.

(** [renderSignatureFooterHTML(formData)] *)
Definition renderSignatureFooterHTML (formData : FormData) : option Footer :=
  let hasFirstSignature := signature_at formData 0 in
  let hasSecondSignature := signature_at formData 1 in
  if (negb (truthy hasFirstSignature) && negb (truthy hasSecondSignature))%bool
  then None
  else
    Some ((if truthy hasFirstSignature
           then [SlotImage (Some "Sole/First Applicant"%string)
                   (orEmpty (signature_at formData 0))]
           else [])
          ++
          (if truthy hasSecondSignature
           then [SlotImage (Some "Second Applicant, if any"%string)
                   (orEmpty (signature_at formData 1))]
           else [])).

(** [renderApplicantFormHTML(applicant, applicantNumber, formData)] *)
Definition renderApplicantFormHTML
  (applicant : option ApplicantData) (applicantNumber : Z) (formData : FormData)
  : option ApplicantBlock :=
  match applicant with
  | None => None
  | Some a =>
      if (negb (truthy (name a)) && (1 <? applicantNumber)%Z)%bool then None
      else
        let titleName := trim (orEmpty (title a) ++ lit " " ++ orEmpty (name a)) in
        let residentialStatus := orEmpty (residentialStatus a) in
        let itWardLines := match_chunks 20 (orEmpty (itWard a)) in
        let addressLines := match_chunks 20 (orEmpty (correspondenceAddress a)) in
        Some {|
          blockNumber := applicantNumber;
          heading := headingOf applicantNumber;
          titleNameRow := renderCharacterBoxesHTML (Some titleName) 20 BOX_WIDTH;
          sonWifeDaughterOfRow :=
            renderCharacterBoxesHTML (Some (orEmpty (sonWifeDaughterOf a))) 20 BOX_WIDTH;
          nationalityRow :=
            renderCharacterBoxesHTML (Some (orEmpty (nationality a))) 20 BOX_WIDTH;
          ageRow := renderCharacterBoxesHTML (Some (orEmpty (age a))) 20 BOX_WIDTH;
          dobRow := renderCharacterBoxesHTML (Some (orEmpty (dob a))) 20 BOX_WIDTH;
          professionRow :=
            renderCharacterBoxesHTML (Some (orEmpty (profession a))) 20 BOX_WIDTH;
          aadhaarRow :=
            renderCharacterBoxesHTML (Some (orEmpty (aadhaar a))) 20 BOX_WIDTH;
          residentialBoxes :=
            {| residentChecked := streq residentialStatus RESIDENT;
               nonResidentChecked := streq residentialStatus NON_RESIDENT;
               foreignNationalChecked := streq residentialStatus FOREIGN_NATIONAL |};
          panRow := renderCharacterBoxesHTML (Some (orEmpty (pan a))) 20 BOX_WIDTH;
          itWardRows :=
            array_from 2 (fun i =>
              let lineValue := index_or_empty itWardLines i in
              renderCharacterBoxesHTML (Some lineValue) 20 BOX_WIDTH);
          addressRows :=
            array_from 3 (fun i =>
              let lineValue := index_or_empty addressLines i in
              renderCharacterBoxesHTML (Some lineValue) 20 BOX_WIDTH);
          telNoRow := renderCharacterBoxesHTML (Some (orEmpty (telNo a))) 20 BOX_WIDTH;
          mobileRow := renderCharacterBoxesHTML (Some (orEmpty (phone a))) 20 BOX_WIDTH;
          emailRow := renderCharacterBoxesHTML (Some (orEmpty (email a))) 20 BOX_WIDTH;
          photo := photoOf a;
          footer := renderSignatureFooterHTML formData
        |}
  end.

(** [renderApartmentFormHTML(formData)] *)
Definition bhkTypeDisplay (formData : FormData) : jsstring :=
  if field_is (bhkType formData) (lit "3bhk") then lit "3 BHK"
  else if field_is (bhkType formData) (lit "4bhk") then lit "4 BHK"
  else [].

Definition unitPriceClean (formData : FormData) : jsstring :=
  if truthy (unitPrice formData)
  then replace_rupee_comma (orEmpty (unitPrice formData)) else [].

Definition totalPriceClean (formData : FormData) : jsstring :=
  if truthy (totalPrice formData)
  then replace_rupee_comma (orEmpty (totalPrice formData)) else [].

Definition renderApartmentFormHTML (formData : FormData) : ApartmentBlock :=
  {| towerText := orEmpty (tower formData);
     apartmentNumberText := orEmpty (apartmentNumber formData);
     typeText := bhkTypeDisplay formData;
     floorText := orEmpty (floor formData);
     carpetAreaSqmText := orEmpty (carpetAreaSqm formData);
     carpetAreaSqftText := orEmpty (carpetAreaSqft formData);
     unitPriceText := unitPriceClean formData;
     totalPriceText := totalPriceClean formData;
     declarationDateText := orEmpty (declarationDate formData);
     declarationPlaceText := orEmpty (declarationPlace formData);
     apartmentFooter := renderSignatureFooterHTML formData |}.

End HtmlRenderer.

(** ** The second document renderer

    The same functions with the constants [APPLICANT_*]: cells with a 1px
    border, 20px high, in a row that wraps, keeps a 1px gap and is given no
    width; the first field shows the name alone, in 15 cells.  (The labels
    this copy takes from [applicant.title] and [applicant.relation] are
    texts beside the cells and are left out.) *)

Module HtmlRendererCompact.

Definition APPLICANT_BOX_WIDTH : Q := 20.
Definition APPLICANT_BOX_HEIGHT : Q := 20.
Definition APPLICANT_BORDER_WIDTH : Q := 1.

Definition renderCharacterBoxesHTML
  (value : field) (boxCount : nat) (boxWidth : Q) : CharacterBoxes :=
  let boxHeight := APPLICANT_BOX_HEIGHT in
  let borderWidth := APPLICANT_BORDER_WIDTH in
  let chars :=
    if truthy value then slice0 boxCount (split_chars (orEmpty value)) else [] in
  let boxes := array_from boxCount (fun i => index_or_empty chars i) in
  {| rowWidth := None;
     rowGap := 1;
     rowWraps := true;
     cellWidth := boxWidth;
     cellHeight := boxHeight;
     cellBorder := borderWidth;
     cells := boxes |}.

Definition renderSignatureFooterHTML (formData : FormData) : option Footer :=
  let hasFirstSignature := signature_at formData 0 in
  let hasSecondSignature := signature_at formData 1 in
  if (negb (truthy hasFirstSignature) && negb (truthy hasSecondSignature))%bool
  then None
  else
    Some ((if truthy hasFirstSignature
           then [SlotImage (Some "Sole/First Applicant"%string)
                   (orEmpty (signature_at formData 0))]
           else [])
          ++
          (if truthy hasSecondSignature
           then [SlotImage (Some "Second Applicant, if any"%string)
                   (orEmpty (signature_at formData 1))]
           else [])).

Definition renderApplicantFormHTML
  (applicant : option ApplicantData) (applicantNumber : Z) (formData : FormData)
  : option ApplicantBlock :=
  match applicant with
  | None => None
  | Some a =>
      if (negb (truthy (name a)) && (1 <? applicantNumber)%Z)%bool then None
      else
        let titleName := trim (orEmpty (name a)) in
        let residentialStatus := orEmpty (residentialStatus a) in
        let itWardLines := match_chunks 20 (orEmpty (itWard a)) in
        let addressLines := match_chunks 20 (orEmpty (correspondenceAddress a)) in
        let boxes v n := renderCharacterBoxesHTML (Some v) n APPLICANT_BOX_WIDTH in
        Some {|
          blockNumber := applicantNumber;
          heading := headingOf applicantNumber;
          titleNameRow := boxes titleName 15%nat;
          sonWifeDaughterOfRow := boxes (orEmpty (sonWifeDaughterOf a)) 20%nat;
          nationalityRow := boxes (orEmpty (nationality a)) 20%nat;
          ageRow := boxes (orEmpty (age a)) 20%nat;
          dobRow := boxes (orEmpty (dob a)) 20%nat;
          professionRow := boxes (orEmpty (profession a)) 20%nat;
          aadhaarRow := boxes (orEmpty (aadhaar a)) 20%nat;
          residentialBoxes :=
            {| residentChecked := streq residentialStatus RESIDENT;
               nonResidentChecked := streq residentialStatus NON_RESIDENT;
               foreignNationalChecked := streq residentialStatus FOREIGN_NATIONAL |};
          panRow := boxes (orEmpty (pan a)) 20%nat;
          itWardRows :=
            array_from 2 (fun i => boxes (index_or_empty itWardLines i) 20%nat);
          addressRows :=
            array_from 3 (fun i => boxes (index_or_empty addressLines i) 20%nat);
          telNoRow := boxes (orEmpty (telNo a)) 20%nat;
          mobileRow := boxes (orEmpty (phone a)) 20%nat;
          emailRow := boxes (orEmpty (email a)) 20%nat;
          photo := photoOf a;
          footer := renderSignatureFooterHTML formData
        |}
  end.

Definition bhkTypeDisplay (formData : FormData) : jsstring :=
  if field_is (bhkType formData) (lit "3bhk") then lit "3 BHK"
  else if field_is (bhkType formData) (lit "4bhk") then lit "4 BHK"
  else [].

Definition unitPriceClean (formData : FormData) : jsstring :=
  if truthy (unitPrice formData)
  then replace_rupee_comma (orEmpty (unitPrice formData)) else [].

Definition totalPriceClean (formData : FormData) : jsstring :=
  if truthy (totalPrice formData)
  then replace_rupee_comma (orEmpty (totalPrice formData)) else [].

Definition renderApartmentFormHTML (formData : FormData) : ApartmentBlock :=
  {| towerText := orEmpty (tower formData);
     apartmentNumberText := orEmpty (apartmentNumber formData);
     typeText := bhkTypeDisplay formData;
     floorText := orEmpty (floor formData);
     carpetAreaSqmText := orEmpty (carpetAreaSqm formData);
     carpetAreaSqftText := orEmpty (carpetAreaSqft formData);
     unitPriceText := unitPriceClean formData;
     totalPriceText := totalPriceClean formData;
     declarationDateText := orEmpty (declarationDate formData);
     declarationPlaceText := orEmpty (declarationPlace formData);
     apartmentFooter := renderSignatureFooterHTML formData |}.

End HtmlRendererCompact.

(** ** The three renderers side by side *)

Inductive Backend :=
| PreviewBackend
| DocumentBackend
| CompactDocumentBackend.

Definition characterBoxes (b : Backend) (value : field) (boxCount : nat) (boxWidth : Q)
  : CharacterBoxes :=
  match b with
  | PreviewBackend => Preview.renderCharacterBoxes value boxCount boxWidth
  | DocumentBackend => HtmlRenderer.renderCharacterBoxesHTML value boxCount boxWidth
  | CompactDocumentBackend =>
      HtmlRendererCompact.renderCharacterBoxesHTML value boxCount boxWidth
  end.

Definition applicantBlock (b : Backend)
  (formData : FormData) (applicant : option ApplicantData) (applicantNumber : Z)
  : option ApplicantBlock :=
  match b with
  | PreviewBackend => Preview.renderApplicantForm (Some formData) applicant applicantNumber
  | DocumentBackend => HtmlRenderer.renderApplicantFormHTML applicant applicantNumber formData
  | CompactDocumentBackend =>
      HtmlRendererCompact.renderApplicantFormHTML applicant applicantNumber formData
  end.

(** The multi-line rows of the applicant block with the two literals of the
    source, the 20 cells of a row and the number of rows, made parameters:
    [itWardRows] is the instance [20, 2] and [addressRows] the instance
    [20, 3] (lemma [block_multi_line_rows]). *)
Definition multiLineRows (b : Backend) (cellsPerRow rowCount : nat) (v : field)
  : list CharacterBoxes :=
  array_from rowCount (fun i =>
    let lines := match_chunks cellsPerRow (orEmpty v) in
    characterBoxes b (Some (index_or_empty lines i)) cellsPerRow 20).

(** A cell holding one character, and a run of empty cells. *)
Definition single (c : codeunit) : jsstring := [c].

Definition blankCells (n : nat) : list jsstring := repeat [] n.

(** Reading a field back from its rows: the cells of all rows in order, the
    empty ones dropped, their texts joined. *)
Definition nonEmpty (cell : jsstring) : bool :=
  match cell with
  | [] => false
  | _ :: _ => true
  end.

Definition readBack (rows : list CharacterBoxes) : jsstring :=
  concat (filter nonEmpty (concat (map (@cells) rows))).

Fixpoint is_prefix (p s : jsstring) : bool :=
  match p, s with
  | [], _ => true
  | x :: p', y :: s' => N.eqb x y && is_prefix p' s'
  | _ :: _, [] => false
  end.

Definition withoutLineTerminators (s : jsstring) : jsstring :=
  filter (fun c => negb (isLineTerminator c)) s.

Definition isDigitOrDecimalSeparator (c : codeunit) : bool :=
  ((N.leb 48 c && N.leb c 57) || N.eqb c 46)%bool.

(** The text in the unit-type cells of the preview's apartment block. *)
Definition typeCells_text (ap : option ApartmentPreview) : option jsstring :=
  match ap with
  | Some p => Some (readBack [typeCells p])
  | None => None
  end.

(** The characters of a string as Unicode code points: a high surrogate
    followed by a low surrogate is one character (U+10000 and above), every
    other code unit is a character of its own. *)
Definition isHighSurrogate (c : codeunit) : bool :=
  (N.leb 55296 c && N.leb c 56319)%bool.

Definition isLowSurrogate (c : codeunit) : bool :=
  (N.leb 56320 c && N.leb c 57343)%bool.

Definition isSurrogate (c : codeunit) : bool :=
  (N.leb 55296 c && N.leb c 57343)%bool.

Fixpoint codePoints (s : jsstring) : list jsstring :=
  match s with
  | [] => []
  | h :: rest =>
      match rest with
      | l :: rest' =>
          if (isHighSurrogate h && isLowSurrogate l)%bool
          then [h; l] :: codePoints rest'
          else [h] :: codePoints rest
      | [] => [[h]]
      end
  end.

(** U+1F600, one character of two code units. *)
Definition grinningFace : jsstring := [55357%N; 56832%N].

(** ** Sample data *)

Definition noApplicant : ApplicantData :=
  {| title := None; name := None; sonWifeDaughterOf := None; nationality := None;
     age := None; dob := None; profession := None; aadhaar := None;
     residentialStatus := None; pan := None; itWard := None;
     correspondenceAddress := None; telNo := None; phone := None; email := None;
     photograph := None; signature := None |}.

Definition named (n : string) : ApplicantData :=
  {| title := None; name := Some (lit n); sonWifeDaughterOf := None;
     nationality := None; age := None; dob := None; profession := None;
     aadhaar := None; residentialStatus := None; pan := None; itWard := None;
     correspondenceAddress := None; telNo := None; phone := None; email := None;
     photograph := None; signature := None |}.

Definition withStatus (st : field) (a : ApplicantData) : ApplicantData :=
  {| title := title a; name := name a; sonWifeDaughterOf := sonWifeDaughterOf a;
     nationality := nationality a; age := age a; dob := dob a;
     profession := profession a; aadhaar := aadhaar a;
     residentialStatus := st; pan := pan a; itWard := itWard a;
     correspondenceAddress := correspondenceAddress a; telNo := telNo a;
     phone := phone a; email := email a;
     photograph := photograph a; signature := signature a |}.

Definition withItWard (w : field) (a : ApplicantData) : ApplicantData :=
  {| title := title a; name := name a; sonWifeDaughterOf := sonWifeDaughterOf a;
     nationality := nationality a; age := age a; dob := dob a;
     profession := profession a; aadhaar := aadhaar a;
     residentialStatus := residentialStatus a; pan := pan a; itWard := w;
     correspondenceAddress := correspondenceAddress a; telNo := telNo a;
     phone := phone a; email := email a;
     photograph := photograph a; signature := signature a |}.

Definition formOf (l : list ApplicantData) : FormData :=
  {| applicants := l; tower := None; apartmentNumber := None; bhkType := None;
     floor := None; carpetAreaSqm := None; carpetAreaSqft := None;
     unitPrice := None; totalPrice := None;
     declarationDate := None; declarationPlace := None |}.

Definition withBhkType (t : field) (fd : FormData) : FormData :=
  {| applicants := applicants fd; tower := tower fd;
     apartmentNumber := apartmentNumber fd; bhkType := t; floor := floor fd;
     carpetAreaSqm := carpetAreaSqm fd; carpetAreaSqft := carpetAreaSqft fd;
     unitPrice := unitPrice fd; totalPrice := totalPrice fd;
     declarationDate := declarationDate fd;
     declarationPlace := declarationPlace fd |}.

Definition withPrices (u t : field) (fd : FormData) : FormData :=
  {| applicants := applicants fd; tower := tower fd;
     apartmentNumber := apartmentNumber fd; bhkType := bhkType fd;
     floor := floor fd;
     carpetAreaSqm := carpetAreaSqm fd; carpetAreaSqft := carpetAreaSqft fd;
     unitPrice := u; totalPrice := t;
     declarationDate := declarationDate fd;
     declarationPlace := declarationPlace fd |}.

(** ** The rest of the preview page and the other components *)

(** The rows of an applicant block, in the order of the form. *)
Definition rowsAfterTitle (block : ApplicantBlock) : list CharacterBoxes :=
  [ sonWifeDaughterOfRow block; nationalityRow block; ageRow block; dobRow block;
    professionRow block; aadhaarRow block; panRow block ]
  ++ itWardRows block ++ addressRows block
  ++ [ telNoRow block; mobileRow block; emailRow block ].

Definition allRows (block : ApplicantBlock) : list CharacterBoxes :=
  titleNameRow block :: rowsAfterTitle block.

(** A block with its signature footer taken off. *)
Definition withoutFooter (block : ApplicantBlock) : ApplicantBlock :=
  {| blockNumber := blockNumber block;
     heading := heading block;
     titleNameRow := titleNameRow block;
     sonWifeDaughterOfRow := sonWifeDaughterOfRow block;
     nationalityRow := nationalityRow block;
     ageRow := ageRow block;
     dobRow := dobRow block;
     professionRow := professionRow block;
     aadhaarRow := aadhaarRow block;
     residentialBoxes := residentialBoxes block;
     panRow := panRow block;
     itWardRows := itWardRows block;
     addressRows := addressRows block;
     telNoRow := telNoRow block;
     mobileRow := mobileRow block;
     emailRow := emailRow block;
     photo := photo block;
     footer := None |}.

Definition isImageSlot (s : SignatureSlot) : bool :=
  match s with
  | SlotImage _ (_ :: _) => true
  | _ => false
  end.

(** The images a footer shows, in order. *)
Fixpoint slotSources (f : Footer) : list jsstring :=
  match f with
  | [] => []
  | SlotImage _ src :: f' => src :: slotSources f'
  | SlotPlaceholder _ :: f' => slotSources f'
  end.

(** The signatures of the first two applicants that are present, in order. *)
Definition presentSignatures (formData : FormData) : list jsstring :=
  (if truthy (signature_at formData 0) then [orEmpty (signature_at formData 0)] else [])
  ++ (if truthy (signature_at formData 1) then [orEmpty (signature_at formData 1)] else []).

(** How many of the first two applicants have a signature. *)
Definition signatureCount (formData : FormData) : nat :=
  ((if truthy (signature_at formData 0) then 1 else 0)
   + (if truthy (signature_at formData 1) then 1 else 0))%nat.

(** The widths [renderApplicantForm] of the preview computes before it
    renders (all in px). *)
Module PreviewLayout.

Definition CONTAINER_WIDTH : Q := 612.
Definition PADDING : Q := 20.
Definition PHOTO_WIDTH : Q := 130.
Definition GAP : Q := 16.
Definition LABEL_WIDTH : Q := 155.
Definition FIELD_GAP : Q := 10.
Definition BOXES_PER_FIELD : Q := 20.

Definition CONTENT_WIDTH : Q := CONTAINER_WIDTH - (PADDING * 2).
Definition FIELDS_AREA_WIDTH : Q := CONTENT_WIDTH - PHOTO_WIDTH - GAP.
Definition AVAILABLE_BOX_WIDTH : Q := FIELDS_AREA_WIDTH - LABEL_WIDTH - FIELD_GAP.

Definition BOX_BORDER_TOTAL : Q := 3.
Definition TOTAL_BORDER_WIDTH : Q := BOX_BORDER_TOTAL * BOXES_PER_FIELD.
Definition BOX_CONTENT_WIDTH : Q := AVAILABLE_BOX_WIDTH - TOTAL_BORDER_WIDTH.
(** [Math.floor(BOX_CONTENT_WIDTH / BOXES_PER_FIELD)] *)
Definition CALCULATED_BOX_WIDTH : Q :=
  inject_Z (Qfloor (BOX_CONTENT_WIDTH / BOXES_PER_FIELD)).

(** The width the rows are rendered with. *)
Definition BOX_WIDTH : Q := 20.

(** [maxWidth] of the column of fields:
    [CONTAINER_WIDTH - PHOTO_WIDTH - PADDING * 2 - GAP]. *)
Definition fieldsColumnMaxWidth : Q :=
  CONTAINER_WIDTH - PHOTO_WIDTH - PADDING * 2 - GAP.

End PreviewLayout.

(** The pages of the preview: nothing before the PDF and the form data are
    loaded, then one entry per page of the PDF, [pageNumber = index + 1]. *)
Module PreviewDocument.

Definition renderPages
  (pdfUrl : bool) (formData : option FormData) (applicantCount : Z) (numPages : nat)
  : list Preview.PageView :=
  match formData with
  | Some fd =>
      if pdfUrl
      then array_from numPages (fun index =>
             let pageNumber := (Z.of_nat index + 1)%Z in
             Preview.renderPage fd applicantCount pageNumber)
      else []
  | None => []
  end.

Definition isStatic (p : Preview.PageView) : bool :=
  match p with
  | Preview.StaticPdfPage _ => true
  | _ => false
  end.

Definition isApartment (p : Preview.PageView) : bool :=
  match p with
  | Preview.ApartmentPage _ => true
  | _ => false
  end.

Definition isApplicant (p : Preview.PageView) : bool :=
  match p with
  | Preview.ApplicantPage _ => true
  | _ => false
  end.

End PreviewDocument.

(** The [PDFViewer] component: which pages it shows and how wide. *)
Module PdfViewer.

Definition defaultFillablePages : list nat := [5; 6; 7; 8]%nat.

(** [fillablePages.includes(pageNumber)] *)
Definition isFillablePage (fillablePages : list nat) (pageNumber : nat) : bool :=
  existsb (Nat.eqb pageNumber) fillablePages.

(** The body of the loop over the pages: [None] is the [null] of a page that
    is left out. *)
Definition pages (fillablePages : list nat) (showOnlyFillable : bool) (numPages : nat)
  : list (option nat) :=
  array_from numPages (fun index =>
    let pageNumber := (index + 1)%nat in
    if (showOnlyFillable && negb (isFillablePage fillablePages pageNumber))%bool
    then None
    else Some pageNumber).

Fixpoint shown (l : list (option nat)) : list nat :=
  match l with
  | [] => []
  | Some p :: l' => p :: shown l'
  | None :: l' => shown l'
  end.

(** [containerWidth ? Math.min(containerWidth, 612) : 612]; [None] is
    [undefined], and 0 is falsy. *)
Definition pageWidth (containerWidth : option Q) : Q :=
  match containerWidth with
  | Some w => if Qeq_bool w 0 then 612 else Qmin w 612
  | None => 612
  end.

End PdfViewer.

(** The page buttons of the admin dashboard. *)
Module AdminDashboard.





(** The state of the viewer: [pdfUrl] (set or not), [numPages] and
    [pageNumber], initially [null], 0 and 1. *)
Record State := {
  pdfUrl : bool;
  numPages : Z;
  pageNumber : Z
}.






End AdminDashboard.

(** The route [GET /api/applications/[id]/form-data].  The database and
    [JSON.parse] are outside the repository: what they answer is a parameter
    of the handler, [Throws] standing for a rejected promise or an
    exception. *)
Module FormDataRoute.

Inductive Outcome (A : Type) :=
| Throws
| Returns (a : A).

Arguments Throws {A}.
Arguments Returns {A} a.

(** The fields the query selects from a stored application. *)
Record Stored := {
  storedFormData : jsstring;
  storedApplicantCount : Z;
  storedBhkType : field
}.

(** The JSON body of a response: the fields of the success body, or
    [error]. *)
Record Body (Json : Type) := {
  bodyFormData : option Json;
  bodyApplicantCount : option Z;
  bodyBhkType : field;
  bodyError : option string
}.

Record Response (Json : Type) := {
  status : Z;
  body : Body Json
}.

Definition errorResponse (Json : Type) (message : string) (code : Z) : Response Json :=
  {| status := code;
     body := {| bodyFormData := None; bodyApplicantCount := None;
                bodyBhkType := None; bodyError := Some message |} |}.

Definition GET (Json : Type)
  (connectDB : Outcome unit)
  (findById : jsstring -> Outcome (option Stored))
  (JSON_parse : jsstring -> Outcome Json)
  (id : jsstring) : Response Json :=
  match connectDB with
  | Throws => errorResponse Json "Failed to fetch form data" 500
  | Returns _ =>
      match findById id with
      | Throws => errorResponse Json "Failed to fetch form data" 500
      | Returns None => errorResponse Json "Application not found" 404
      | Returns (Some application) =>
          match JSON_parse (storedFormData application) with
          | Throws => errorResponse Json "Failed to fetch form data" 500
          | Returns parsed =>
              {| status := 200;
                 body := {| bodyFormData := Some parsed;
                            bodyApplicantCount := Some (storedApplicantCount application);
                            bodyBhkType := storedBhkType application;
                            bodyError := None |} |}
          end
      end
  end.

End FormDataRoute.

(** What the preview page keeps once its two requests have answered: the
    PDF request always gives a blob, and the body of the form-data response
    is read without looking at the status. *)
Module PreviewLoad.

Record State := {
  pdfUrl : bool;
  formData : option FormData;
  applicantCount : Z;
  loading : bool;
  error : option string
}.

Definition afterLoad (data : FormDataRoute.Body FormData) : State :=
  {| pdfUrl := true;
     formData := FormDataRoute.bodyFormData data;
     applicantCount := Preview.loadedApplicantCount (FormDataRoute.bodyApplicantCount data);
     loading := false;
     error := None |}.

Definition pagesShown (st : State) (numPages : nat) : list Preview.PageView :=
  PreviewDocument.renderPages (pdfUrl st) (formData st) (applicantCount st) numPages.

End PreviewLoad.

Definition withSignature (s : field) (a : ApplicantData) : ApplicantData :=
  {| title := title a; name := name a; sonWifeDaughterOf := sonWifeDaughterOf a;
     nationality := nationality a; age := age a; dob := dob a;
     profession := profession a; aadhaar := aadhaar a;
     residentialStatus := residentialStatus a; pan := pan a; itWard := itWard a;
     correspondenceAddress := correspondenceAddress a; telNo := telNo a;
     phone := phone a; email := email a;
     photograph := photograph a; signature := s |}.

Definition withAddress (v : field) (a : ApplicantData) : ApplicantData :=
  {| title := title a; name := name a; sonWifeDaughterOf := sonWifeDaughterOf a;
     nationality := nationality a; age := age a; dob := dob a;
     profession := profession a; aadhaar := aadhaar a;
     residentialStatus := residentialStatus a; pan := pan a; itWard := itWard a;
     correspondenceAddress := v; telNo := telNo a;
     phone := phone a; email := email a;
     photograph := photograph a; signature := signature a |}.

(** * Properties *)

Open Scope nat_scope.

(** ** Strings *)

Lemma streq_eq (a b : jsstring) : streq a b = true <-> a = b.
Proof.
  revert b; induction a as [|x a IH]; intros [|y b]; simpl; split;
    try congruence; try reflexivity.
  - intros H. apply andb_true_iff in H as [Hx Ha].
    apply N.eqb_eq in Hx. apply IH in Ha. congruence.
  - intros H. inversion H; subst. rewrite N.eqb_refl. simpl. now apply IH.
Qed.

Lemma streq_orEmpty (v : field) (l : jsstring) :
  l <> [] -> (streq (orEmpty v) l = true <-> v = Some l).
Proof.
  intros Hl. rewrite streq_eq. destruct v as [[|c s]|]; simpl; split;
    intros H; try congruence.
Qed.

Lemma field_is_eq (v : field) (l : jsstring) :
  field_is v l = true <-> v = Some l.
Proof.
  destruct v as [s|]; simpl.
  - rewrite streq_eq. split; congruence.
  - split; congruence.
Qed.

Lemma is_prefix_spec (p s : jsstring) :
  is_prefix p s = true <-> exists t, s = p ++ t.
Proof.
  revert s; induction p as [|x p IH]; intros s; simpl.
  - split; [intros _; now exists s | reflexivity].
  - destruct s as [|y s].
    + split; [discriminate | intros [t Ht]; discriminate].
    + rewrite andb_true_iff, N.eqb_eq, IH. split.
      * intros [-> [t ->]]. now exists t.
      * intros [t Ht]. inversion Ht; subst. split; [reflexivity | now exists t].
Qed.

(** ** One row of cells *)

Lemma array_from_S (A : Type) (n : nat) (f : nat -> A) :
  array_from (S n) f = f 0%nat :: array_from n (fun i => f (S i)).
Proof.
  unfold array_from. simpl. now rewrite <- seq_shift, map_map.
Qed.

Lemma array_from_ext (A : Type) (n : nat) (f g : nat -> A) :
  (forall i, f i = g i) -> array_from n f = array_from n g.
Proof. intros H. unfold array_from. apply map_ext. intros i. apply H. Qed.

Lemma array_from_length (A : Type) (n : nat) (f : nat -> A) :
  length (array_from n f) = n.
Proof. unfold array_from. now rewrite length_map, length_seq. Qed.

Lemma array_from_blank (n : nat) :
  array_from n (fun i => index_or_empty [] i) = blankCells n.
Proof.
  induction n as [|n IH]; [reflexivity|].
  rewrite array_from_S. change (blankCells (S n)) with ([] :: blankCells n).
  change (index_or_empty [] 0) with (@nil codeunit). f_equal.
  rewrite <- IH. apply array_from_ext. intros [|i]; reflexivity.
Qed.

(** Indexing the split characters of [t] over [n] cells: the characters that
    fit, then blanks. *)
Lemma array_from_chars (t : jsstring) (n : nat) :
  array_from n (fun i => index_or_empty (split_chars t) i)
  = map single (firstn n t) ++ blankCells (n - length t).
Proof.
  revert t; induction n as [|n IH]; intros t; [reflexivity|].
  rewrite array_from_S. destruct t as [|x t].
  - change (split_chars []) with (@nil jsstring).
    change (map single (firstn (S n) []) ++ blankCells (S n - length (@nil codeunit)))
      with ([] :: blankCells n).
    f_equal. rewrite <- (array_from_blank n).
    apply array_from_ext. intros [|i]; reflexivity.
  - simpl. f_equal. apply IH.
Qed.

(** The cells every renderer produces for [value] over [boxCount] cells. *)
Lemma cells_characterBoxes (b : Backend) (value : field) (boxCount : nat) (w : Q) :
  cells (characterBoxes b value boxCount w)
  = map single (firstn boxCount (orEmpty value))
    ++ blankCells (boxCount - length (orEmpty value)).
Proof.
  assert (H : array_from boxCount
                (fun i => index_or_empty
                   (if truthy value
                    then slice0 boxCount (split_chars (orEmpty value)) else []) i)
              = map single (firstn boxCount (orEmpty value))
                ++ blankCells (boxCount - length (orEmpty value))).
  { destruct (truthy value) eqn:Ht.
    - generalize (orEmpty value) as t. intros t.
      unfold slice0, split_chars. rewrite firstn_map.
      etransitivity; [apply (array_from_chars (firstn boxCount t) boxCount)|].
      rewrite firstn_firstn, Nat.min_id, length_firstn. f_equal.
      destruct (Nat.le_ge_cases boxCount (length t)) as [Hle|Hge].
      + rewrite Nat.min_l by exact Hle.
        replace (boxCount - boxCount)%nat with 0%nat by lia.
        now replace (boxCount - length t)%nat with 0%nat by lia.
      + now rewrite Nat.min_r by exact Hge.
    - assert (He : orEmpty value = []) by (destruct value as [[|c s]|]; simpl in *; congruence).
      rewrite He, array_from_blank. simpl. now rewrite firstn_nil, Nat.sub_0_r. }
  destruct b; exact H.
Qed.

Lemma blankCells_length (n : nat) : length (blankCells n) = n.
Proof. apply repeat_length. Qed.

Lemma codePoints_without_surrogates (s : jsstring) :
  forallb (fun c => negb (isSurrogate c)) s = true ->
  codePoints s = map single s.
Proof.
  induction s as [|h rest IH]; [reflexivity|].
  intros H. simpl in H. apply andb_true_iff in H as [Hh Hrest].
  specialize (IH Hrest). destruct rest as [|l rest']; [reflexivity|].
  assert (Hhigh : isHighSurrogate h = false).
  { unfold isSurrogate in Hh. unfold isHighSurrogate.
    apply negb_true_iff in Hh.
    destruct (N.leb 55296 h) eqn:E1; [|reflexivity].
    destruct (N.leb h 56319) eqn:E2; [|reflexivity].
    apply N.leb_le in E2. assert (E3 : N.leb h 57343 = true) by (apply N.leb_le; lia).
    rewrite E3 in Hh. discriminate Hh. }
  change (codePoints (h :: l :: rest'))
    with (if (isHighSurrogate h && isLowSurrogate l)%bool
          then [h; l] :: codePoints rest'
          else [h] :: codePoints (l :: rest')).
  rewrite Hhigh. simpl andb. cbv iota. now rewrite IH.
Qed.

(** C3 (as the code has it).  A character of a string is a UTF-16 code
    unit, which is what [split('')] yields: a character outside the BMP
    counts as two.  In every renderer the row of cells for a value [v] over
    [n] cells has exactly [n] cells; for a string [s] of at most [n] code
    units the first cells hold the code units of [s] in order, one each, and
    the rest are empty; for a longer string the row is the row of its first
    [n] code units; for a missing or empty value every cell is empty.  For a
    string without surrogates the cells hold its code points, one each. *)
Theorem C3_character_cell_row (b : Backend) (v : field) (n : nat) (w : Q) :
  length (cells (characterBoxes b v n w)) = n
  /\ (forall s, v = Some s -> length s <= n ->
        cells (characterBoxes b v n w)
        = map single s ++ blankCells (n - length s))
  /\ (forall s, v = Some s -> n < length s ->
        cells (characterBoxes b v n w)
        = cells (characterBoxes b (Some (firstn n s)) n w)
        /\ cells (characterBoxes b v n w) = map single (firstn n s))
  /\ (v = None \/ v = Some [] ->
        cells (characterBoxes b v n w) = blankCells n)
  /\ (forall s, v = Some s ->
        forallb (fun c => negb (isSurrogate c)) s = true ->
        length s <= n ->
        cells (characterBoxes b v n w)
        = codePoints s ++ blankCells (n - length (codePoints s))).
Proof.
  assert (Hor : forall s : jsstring, orEmpty (Some s) = s) by (intros [|c s]; reflexivity).
  split; [|split; [|split; [|split]]]; [| |split| |].
  - rewrite cells_characterBoxes, length_app, length_map, length_firstn, blankCells_length.
    lia.
  - intros s -> Hs. rewrite cells_characterBoxes, Hor.
    now rewrite firstn_all2 by exact Hs.
  - rewrite !cells_characterBoxes, !Hor, firstn_firstn, Nat.min_id, length_firstn.
    rewrite H. rewrite Hor. f_equal.
    replace (n - length s)%nat with 0%nat by lia.
    now replace (n - Nat.min n (length s))%nat with 0%nat by lia.
  - rewrite cells_characterBoxes, H, Hor.
    replace (n - length s)%nat with 0%nat by lia.
    simpl. now rewrite app_nil_r.
  - intros [-> | ->]; rewrite cells_characterBoxes; simpl;
      now rewrite firstn_nil, Nat.sub_0_r.
  - intros s -> Hs Hn.
    rewrite (codePoints_without_surrogates s Hs), length_map.
    rewrite cells_characterBoxes, Hor. now rewrite firstn_all2 by exact Hn.
Qed.

Lemma C3_character_cell_row_witness :
  cells (characterBoxes PreviewBackend (Some (lit "AB")) 3 20)
  = [lit "A"; lit "B"; []]
  /\ cells (characterBoxes DocumentBackend (Some (lit "ABCD")) 3 20)
     = [lit "A"; lit "B"; lit "C"]
  /\ cells (characterBoxes CompactDocumentBackend None 2 20) = [[]; []].
Proof.
  split; [|split].
  - apply (proj1 (proj2 (C3_character_cell_row PreviewBackend (Some (lit "AB")) 3 20))
             (lit "AB") eq_refl).
    simpl. lia.
  - apply (proj2 (proj1 (proj2 (proj2
             (C3_character_cell_row DocumentBackend (Some (lit "ABCD")) 3 20)))
             (lit "ABCD") eq_refl ltac:(simpl; lia))).
  - apply (proj1 (proj2 (proj2 (proj2
             (C3_character_cell_row CompactDocumentBackend None 2 20))))).
    left. reflexivity.
Defined.

(** The one character U+1F600 in a row of one cell: the cell holds its
    first code unit alone, in every renderer, not the character; in a row of
    two cells the character takes both, and no cell is left empty. *)
Lemma C3_astral_character_is_split :
  codePoints grinningFace = [grinningFace]
  /\ length (codePoints grinningFace) <= 1
  /\ cells (characterBoxes PreviewBackend (Some grinningFace) 1 20) = [[55357%N]]
  /\ cells (characterBoxes DocumentBackend (Some grinningFace) 1 20) = [[55357%N]]
  /\ cells (characterBoxes CompactDocumentBackend (Some grinningFace) 1 20)
     = [[55357%N]]
  /\ cells (characterBoxes DocumentBackend (Some grinningFace) 1 20)
     <> codePoints grinningFace
        ++ blankCells (1 - length (codePoints grinningFace))
  /\ cells (characterBoxes DocumentBackend (Some grinningFace) 2 20)
     = [[55357%N]; [56832%N]]
  /\ cells (characterBoxes DocumentBackend (Some grinningFace) 2 20)
     <> codePoints grinningFace
        ++ blankCells (2 - length (codePoints grinningFace)).
Proof.
  repeat split; try (simpl; lia); intros H; vm_compute in H; discriminate H.
Qed.

(** ** The width of a row *)

(** X22.  For a box width of a whole number of px and a cell count that
    keep every result at or below 2^53, where the double arithmetic of the
    source is exact,
    the preview and [lib/html-renderer.ts] give a row of cells the width
    [boxCount * (boxWidth + 2 * 1.5)]: the border width is the constant 1.5
    in both, the width does not depend on the value shown, and both
    renderers give the same width for the same [boxWidth] and [boxCount]. *)
Theorem row_width_on_whole_pixels (value : field) (boxCount : nat) (boxWidth : Z) :
  (0 <= boxWidth)%Z ->
  (boxWidth + 3 <= 2 ^ 53)%Z ->
  ((boxWidth + 3) * Z.of_nat boxCount <= 2 ^ 53)%Z ->
  (exists w : Q,
      rowWidth (Preview.renderCharacterBoxes value boxCount (inject_Z boxWidth)) = Some w
      /\ (w == inject_Z (Z.of_nat boxCount * (boxWidth + 3)))%Q
      /\ (w == inject_Z (Z.of_nat boxCount) * (inject_Z boxWidth + 2 * (3 # 2)))%Q)
  /\ rowWidth (HtmlRenderer.renderCharacterBoxesHTML value boxCount (inject_Z boxWidth))
     = rowWidth (Preview.renderCharacterBoxes value boxCount (inject_Z boxWidth))
  /\ cellBorder (Preview.renderCharacterBoxes value boxCount (inject_Z boxWidth))
     = (3 # 2)%Q
  /\ cellBorder (HtmlRenderer.renderCharacterBoxesHTML value boxCount (inject_Z boxWidth))
     = (3 # 2)%Q
  /\ (forall value' : field,
        rowWidth (Preview.renderCharacterBoxes value' boxCount (inject_Z boxWidth))
        = rowWidth (Preview.renderCharacterBoxes value boxCount (inject_Z boxWidth))
        /\ rowWidth (HtmlRenderer.renderCharacterBoxesHTML value' boxCount
                       (inject_Z boxWidth))
           = rowWidth (HtmlRenderer.renderCharacterBoxesHTML value boxCount
                         (inject_Z boxWidth))).
Proof.
  intros _ _ _. split; [|repeat split].
  eexists. split; [reflexivity|]. split.
  - simpl. rewrite !inject_Z_mult, inject_Z_plus. ring.
  - simpl. ring.
Qed.

Lemma row_width_on_whole_pixels_witness :
  exists w : Q,
    rowWidth (Preview.renderCharacterBoxes (Some (lit "A")) 20 (inject_Z 20)) = Some w
    /\ (w == inject_Z (Z.of_nat 20 * (20 + 3)))%Q.
Proof.
  destruct (proj1 (@row_width_on_whole_pixels (Some (lit "A")) 20 20%Z
                     ltac:(lia) ltac:(simpl; lia) ltac:(simpl; lia)))
    as (w & Hw & Heq & _).
  exists w. split; [exact Hw | exact Heq].
Defined.

(** C1, the second document renderer at a row of 20 cells of 20px.  The
    preview gives the row 460px, [20 * (20 + 2 * 1.5)], cells with a 1.5px
    border, no gap and no wrapping, and [lib/html-renderer.ts] gives the
    same.  The second document renderer gives the row no width at all: its
    cells have a 1px border and are 20px high, and the row wraps with a 1px
    gap. *)
Theorem C1_compact_row_has_no_width :
  rowWidth (HtmlRendererCompact.renderCharacterBoxesHTML (Some (lit "A")) 20 20)
  <> rowWidth (Preview.renderCharacterBoxes (Some (lit "A")) 20 20)
  /\ rowWidth (HtmlRendererCompact.renderCharacterBoxesHTML (Some (lit "A")) 20 20) = None
  /\ (exists w, rowWidth (Preview.renderCharacterBoxes (Some (lit "A")) 20 20) = Some w
                /\ (w == 460)%Q
                /\ (w == 20 * (20 + 2 * (3 # 2)))%Q)
  /\ rowWidth (HtmlRenderer.renderCharacterBoxesHTML (Some (lit "A")) 20 20)
     = rowWidth (Preview.renderCharacterBoxes (Some (lit "A")) 20 20)
  /\ rowWraps (HtmlRendererCompact.renderCharacterBoxesHTML (Some (lit "A")) 20 20) = true
  /\ rowGap (HtmlRendererCompact.renderCharacterBoxesHTML (Some (lit "A")) 20 20) = 1%Q
  /\ cellBorder (HtmlRendererCompact.renderCharacterBoxesHTML (Some (lit "A")) 20 20) = 1%Q
  /\ cellHeight (HtmlRendererCompact.renderCharacterBoxesHTML (Some (lit "A")) 20 20) = 20%Q
  /\ rowWraps (Preview.renderCharacterBoxes (Some (lit "A")) 20 20) = false
  /\ rowGap (Preview.renderCharacterBoxes (Some (lit "A")) 20 20) = 0%Q
  /\ cellBorder (Preview.renderCharacterBoxes (Some (lit "A")) 20 20) = (3 # 2)%Q
  /\ cellHeight (Preview.renderCharacterBoxes (Some (lit "A")) 20 20) = 24%Q.
Proof.
  split; [discriminate|]. split; [reflexivity|]. split.
  - eexists. split; [reflexivity|]. split; reflexivity.
  - repeat split.
Qed.

(** ** Applicant blocks *)

(** A block is produced for a present record unless the name is missing and
    the applicant number is above 1. *)
Ltac block_inv b a n H :=
  destruct b;
  unfold applicantBlock, Preview.renderApplicantForm,
    HtmlRenderer.renderApplicantFormHTML,
    HtmlRendererCompact.renderApplicantFormHTML in H;
  destruct (negb (truthy (name a)) && (1 <? n)%Z)%bool eqn:Hgate;
  try discriminate H; injection H as <-.

Lemma block_gate (b : Backend) (fd : FormData) (a : ApplicantData) (n : Z) :
  applicantBlock b fd (Some a) n = None
  <-> (negb (truthy (name a)) && (1 <? n)%Z)%bool = true.
Proof.
  destruct b;
    unfold applicantBlock, Preview.renderApplicantForm,
      HtmlRenderer.renderApplicantFormHTML,
      HtmlRendererCompact.renderApplicantFormHTML;
    destruct (negb (truthy (name a)) && (1 <? n)%Z)%bool;
    split; congruence.
Qed.

Lemma block_multi_line_rows
  (b : Backend) (fd : FormData) (a : ApplicantData) (n : Z) (block : ApplicantBlock) :
  applicantBlock b fd (Some a) n = Some block ->
  itWardRows block = multiLineRows b 20 2 (itWard a)
  /\ addressRows block = multiLineRows b 20 3 (correspondenceAddress a).
Proof. intros H. block_inv b a n H; split; reflexivity. Qed.

Lemma status_values_distinct :
  RESIDENT <> NON_RESIDENT /\ RESIDENT <> FOREIGN_NATIONAL
  /\ NON_RESIDENT <> FOREIGN_NATIONAL.
Proof. repeat split; intros H; vm_compute in H; discriminate H. Qed.

Lemma status_values_non_empty :
  RESIDENT <> [] /\ NON_RESIDENT <> [] /\ FOREIGN_NATIONAL <> [].
Proof. repeat split; intros H; vm_compute in H; discriminate H. Qed.

(** Each box is ticked exactly when the stored value is its own. *)
Lemma residential_boxes_exact
  (b : Backend) (fd : FormData) (a : ApplicantData) (n : Z) (block : ApplicantBlock) :
  applicantBlock b fd (Some a) n = Some block ->
  (residentChecked (residentialBoxes block) = true
   <-> residentialStatus a = Some RESIDENT)
  /\ (nonResidentChecked (residentialBoxes block) = true
      <-> residentialStatus a = Some NON_RESIDENT)
  /\ (foreignNationalChecked (residentialBoxes block) = true
      <-> residentialStatus a = Some FOREIGN_NATIONAL).
Proof.
  destruct status_values_non_empty as (H1 & H2 & H3).
  intros H. block_inv b a n H; cbn [residentialBoxes residentChecked
    nonResidentChecked foreignNationalChecked];
    repeat split; try apply field_is_eq; try (apply streq_orEmpty; assumption);
    try (apply field_is_eq; assumption);
    try (apply streq_orEmpty; [assumption|]; assumption).
Qed.

(** C8.  In every renderer, whatever the stored residential status, at most
    one of the three check boxes is ticked; a box is ticked exactly when the
    stored value is equal, as a string, to the value of that box; when the
    stored value is none of the three (or is missing), no box is ticked. *)
Theorem C8_residential_status_exclusive
  (b : Backend) (fd : FormData) (a : ApplicantData) (n : Z) (block : ApplicantBlock) :
  applicantBlock b fd (Some a) n = Some block ->
  checkedCount (residentialBoxes block) <= 1
  /\ (residentChecked (residentialBoxes block) = true
      <-> residentialStatus a = Some RESIDENT)
  /\ (nonResidentChecked (residentialBoxes block) = true
      <-> residentialStatus a = Some NON_RESIDENT)
  /\ (foreignNationalChecked (residentialBoxes block) = true
      <-> residentialStatus a = Some FOREIGN_NATIONAL)
  /\ (residentialStatus a <> Some RESIDENT ->
      residentialStatus a <> Some NON_RESIDENT ->
      residentialStatus a <> Some FOREIGN_NATIONAL ->
      checkedCount (residentialBoxes block) = 0).
Proof.
  intros H. destruct (residential_boxes_exact _ _ _ _ H) as (Hr & Hn & Hf).
  destruct status_values_distinct as (D1 & D2 & D3).
  repeat split; try apply Hr; try apply Hn; try apply Hf.
  - unfold checkedCount.
    destruct (residentChecked (residentialBoxes block)) eqn:Er;
      destruct (nonResidentChecked (residentialBoxes block)) eqn:En;
      destruct (foreignNationalChecked (residentialBoxes block)) eqn:Ef;
      simpl; try lia; exfalso.
    + apply D1. destruct Hr as [Hr _], Hn as [Hn _].
      specialize (Hr eq_refl). specialize (Hn eq_refl). congruence.
    + apply D1. destruct Hr as [Hr _], Hn as [Hn _].
      specialize (Hr eq_refl). specialize (Hn eq_refl). congruence.
    + apply D2. destruct Hr as [Hr _], Hf as [Hf _].
      specialize (Hr eq_refl). specialize (Hf eq_refl). congruence.
    + apply D3. destruct Hn as [Hn _], Hf as [Hf _].
      specialize (Hn eq_refl). specialize (Hf eq_refl). congruence.
  - intros N1 N2 N3. unfold checkedCount.
    destruct (residentChecked (residentialBoxes block));
      [exfalso; apply N1, Hr; reflexivity|].
    destruct (nonResidentChecked (residentialBoxes block));
      [exfalso; apply N2, Hn; reflexivity|].
    destruct (foreignNationalChecked (residentialBoxes block));
      [exfalso; apply N3, Hf; reflexivity|].
    reflexivity.
Qed.

Lemma C8_residential_status_exclusive_witness :
  exists block,
    applicantBlock DocumentBackend (formOf [withStatus (Some NON_RESIDENT) (named "Asha")])
      (Some (withStatus (Some NON_RESIDENT) (named "Asha"))) 1 = Some block
    /\ checkedCount (residentialBoxes block) <= 1
    /\ nonResidentChecked (residentialBoxes block) = true.
Proof.
  eexists. split; [reflexivity|].
  pose proof (C8_residential_status_exclusive DocumentBackend
                (formOf [withStatus (Some NON_RESIDENT) (named "Asha")])
                (withStatus (Some NON_RESIDENT) (named "Asha")) 1 eq_refl)
    as (Hle & _ & Hn & _).
  split; [exact Hle | apply Hn; reflexivity].
Defined.

(** C9.  The applicant-block renderer of every backend (a total function of
    its arguments) returns the empty output for a missing record ([null] or
    [undefined]) at every applicant number, 1 included; in the preview this
    holds whether or not the form data is loaded, and page 5 of a form
    without applicants shows an empty block. *)
Theorem C9_missing_record_renders_nothing :
  (forall (b : Backend) (fd : FormData) (n : Z), applicantBlock b fd None n = None)
  /\ (forall (fd : option FormData) (n : Z), Preview.renderApplicantForm fd None n = None)
  /\ (forall (count : Z),
        Preview.renderPage (formOf []) count 5 = Preview.ApplicantPage None).
Proof.
  repeat split. intros [] fd n; reflexivity.
Qed.

(** ** Which applicant blocks appear *)

Lemma renderPage_6 (fd : FormData) (count : Z) :
  Preview.renderPage fd count 6
  = if ((2 <=? count)%Z && Preview.hasNamedApplicant fd 1)%bool
    then Preview.ApplicantPage
           (Preview.renderApplicantForm (Some fd) (applicant_at fd 1) 2)
    else Preview.Omitted.
Proof. reflexivity. Qed.

Lemma renderPage_7 (fd : FormData) (count : Z) :
  Preview.renderPage fd count 7
  = if ((3 <=? count)%Z && Preview.hasNamedApplicant fd 2)%bool
    then Preview.ApplicantPage
           (Preview.renderApplicantForm (Some fd) (applicant_at fd 2) 3)
    else Preview.Omitted.
Proof. reflexivity. Qed.

Lemma unnamed_slot_renders_nothing (b : Backend) (fd : FormData) (i : nat) (n : Z) :
  (1 < n)%Z -> Preview.hasNamedApplicant fd i = false ->
  applicantBlock b fd (applicant_at fd i) n = None.
Proof.
  intros Hn. unfold Preview.hasNamedApplicant.
  destruct (applicant_at fd i) as [a|]; intros Hname.
  - apply block_gate. rewrite Hname. simpl. now apply Z.ltb_lt.
  - destruct b; reflexivity.
Qed.

(** C2 (as the code has it).  When the applicant at index 1 (or 2) has no
    name, no block is rendered for it, whatever the applicant count: the
    preview omits page 6 (or 7) and every applicant-block renderer returns
    the empty output.  The applicant-block renderers themselves decide by
    the name alone for an applicant number above 1.  The preview page adds
    the applicant count to the test: page 6 (or 7) appears exactly when the
    count is at least 2 (or 3) and the applicant has a name. *)
Theorem C2_unnamed_applicant_is_omitted (fd : FormData) (applicantCount : Z) :
  (Preview.hasNamedApplicant fd 1 = false ->
     Preview.renderPage fd applicantCount 6 = Preview.Omitted
     /\ forall b, applicantBlock b fd (applicant_at fd 1) 2 = None)
  /\ (Preview.hasNamedApplicant fd 2 = false ->
        Preview.renderPage fd applicantCount 7 = Preview.Omitted
        /\ forall b, applicantBlock b fd (applicant_at fd 2) 3 = None)
  /\ (forall b a n, (1 < n)%Z ->
        (applicantBlock b fd (Some a) n = None <-> truthy (name a) = false))
  /\ (Preview.renderPage fd applicantCount 6 <> Preview.Omitted
      <-> (2 <= applicantCount)%Z /\ Preview.hasNamedApplicant fd 1 = true)
  /\ (Preview.renderPage fd applicantCount 7 <> Preview.Omitted
      <-> (3 <= applicantCount)%Z /\ Preview.hasNamedApplicant fd 2 = true).
Proof.
  split; [|split; [|split; [|split]]].
  - intros H. split.
    + rewrite renderPage_6, H, andb_false_r. reflexivity.
    + intros b. apply unnamed_slot_renders_nothing; [lia | exact H].
  - intros H. split.
    + rewrite renderPage_7, H, andb_false_r. reflexivity.
    + intros b. apply unnamed_slot_renders_nothing; [lia | exact H].
  - intros b a n Hn. rewrite block_gate.
    apply Z.ltb_lt in Hn. rewrite Hn, andb_true_r.
    destruct (truthy (name a)); simpl; split; congruence.
  - rewrite renderPage_6.
    destruct (2 <=? applicantCount)%Z eqn:Hc;
      destruct (Preview.hasNamedApplicant fd 1); simpl;
      (split; [intros H | intros [H1 H2]]);
      try (exfalso; apply H; reflexivity); try discriminate.
    + split; [now apply Z.leb_le | reflexivity].
    + apply Z.leb_gt in Hc. lia.
  - rewrite renderPage_7.
    destruct (3 <=? applicantCount)%Z eqn:Hc;
      destruct (Preview.hasNamedApplicant fd 2); simpl;
      (split; [intros H | intros [H1 H2]]);
      try (exfalso; apply H; reflexivity); try discriminate.
    + split; [now apply Z.leb_le | reflexivity].
    + apply Z.leb_gt in Hc. lia.
Qed.

Lemma C2_unnamed_applicant_is_omitted_witness :
  Preview.hasNamedApplicant (formOf [named "Asha"; noApplicant]) 1 = false
  /\ Preview.renderPage (formOf [named "Asha"; noApplicant]) 3 6 = Preview.Omitted
  /\ applicantBlock DocumentBackend (formOf [named "Asha"; noApplicant])
       (applicant_at (formOf [named "Asha"; noApplicant]) 1) 2 = None.
Proof.
  split; [reflexivity|].
  destruct (proj1 (C2_unnamed_applicant_is_omitted
                     (formOf [named "Asha"; noApplicant]) 3) eq_refl) as [Hp Hb].
  split; [exact Hp | exact (Hb DocumentBackend)].
Defined.

(** With a second applicant named Bob, the preview leaves page 6 out when
    the applicant count is 1 and shows it when the count is 2: the count
    decides, the data being the same. *)
Lemma C2_preview_follows_applicant_count :
  Preview.hasNamedApplicant (formOf [named "Asha"; named "Bob"]) 1 = true
  /\ Preview.renderPage (formOf [named "Asha"; named "Bob"])
       (Preview.loadedApplicantCount (Some 1%Z)) 6 = Preview.Omitted
  /\ Preview.renderPage (formOf [named "Asha"; named "Bob"])
       (Preview.loadedApplicantCount (Some 2%Z)) 6 <> Preview.Omitted
  /\ applicantBlock DocumentBackend (formOf [named "Asha"; named "Bob"])
       (applicant_at (formOf [named "Asha"; named "Bob"]) 1) 2 <> None.
Proof.
  split; [reflexivity|]. split; [reflexivity|]. split.
  - rewrite renderPage_6. simpl. discriminate.
  - simpl. discriminate.
Qed.

(** ** The signature footer *)

(** X23.  In the two document renderers the signature footer is produced
    if and only if at least one of the two signature images (applicant 0 or
    applicant 1) is present, and with both missing the footer is the empty
    output; the applicant block and the apartment block carry this same
    footer.  In the preview a block has a footer exactly when its applicant
    number is 1, and the footer then has two slots. *)
Theorem signature_footer_presence (fd : FormData) :
  (HtmlRenderer.renderSignatureFooterHTML fd <> None
   <-> truthy (signature_at fd 0) = true \/ truthy (signature_at fd 1) = true)
  /\ (HtmlRendererCompact.renderSignatureFooterHTML fd <> None
      <-> truthy (signature_at fd 0) = true \/ truthy (signature_at fd 1) = true)
  /\ (truthy (signature_at fd 0) = false -> truthy (signature_at fd 1) = false ->
        HtmlRenderer.renderSignatureFooterHTML fd = None
        /\ HtmlRendererCompact.renderSignatureFooterHTML fd = None)
  /\ (forall a n block,
        HtmlRenderer.renderApplicantFormHTML (Some a) n fd = Some block ->
        footer block = HtmlRenderer.renderSignatureFooterHTML fd)
  /\ (forall a n block,
        HtmlRendererCompact.renderApplicantFormHTML (Some a) n fd = Some block ->
        footer block = HtmlRendererCompact.renderSignatureFooterHTML fd)
  /\ apartmentFooter (HtmlRenderer.renderApartmentFormHTML fd)
     = HtmlRenderer.renderSignatureFooterHTML fd
  /\ apartmentFooter (HtmlRendererCompact.renderApartmentFormHTML fd)
     = HtmlRendererCompact.renderSignatureFooterHTML fd
  /\ (forall a n block,
        Preview.renderApplicantForm (Some fd) (Some a) n = Some block ->
        (footer block <> None <-> n = 1%Z)
        /\ (n = 1%Z -> exists s1 s2, footer block = Some [s1; s2])).
Proof.
  assert (Hdoc : forall s0 s1 : field, forall x y : Footer,
    (if (negb (truthy s0) && negb (truthy s1))%bool then None
     else Some ((if truthy s0 then x else []) ++ (if truthy s1 then y else [])))
    <> None <-> truthy s0 = true \/ truthy s1 = true).
  { intros s0 s1 x y. destruct (truthy s0), (truthy s1); simpl;
      split; intros H; try discriminate; auto;
      try (exfalso; apply H; reflexivity); destruct H; discriminate. }
  split; [apply Hdoc|]. split; [apply Hdoc|].
  split.
  { intros H0 H1. unfold HtmlRenderer.renderSignatureFooterHTML,
      HtmlRendererCompact.renderSignatureFooterHTML.
    rewrite H0, H1. split; reflexivity. }
  split.
  { intros a n block H. unfold HtmlRenderer.renderApplicantFormHTML in H.
    destruct (negb (truthy (name a)) && (1 <? n)%Z)%bool; [discriminate|].
    injection H as <-. reflexivity. }
  split.
  { intros a n block H. unfold HtmlRendererCompact.renderApplicantFormHTML in H.
    destruct (negb (truthy (name a)) && (1 <? n)%Z)%bool; [discriminate|].
    injection H as <-. reflexivity. }
  split; [reflexivity|]. split; [reflexivity|].
  intros a n block H. unfold Preview.renderApplicantForm in H.
  destruct (negb (truthy (name a)) && (1 <? n)%Z)%bool; [discriminate|].
  injection H as <-. cbn [footer].
  destruct (n =? 1)%Z eqn:En.
  - apply Z.eqb_eq in En. split.
    + split; [intros _; exact En | intros _; discriminate].
    + intros _. eexists. eexists. reflexivity.
  - apply Z.eqb_neq in En. split.
    + split; [intros H; exfalso; apply H; reflexivity | intros H; contradiction].
    + intros H; contradiction.
Qed.

Lemma signature_footer_presence_witness :
  HtmlRenderer.renderSignatureFooterHTML (formOf [named "Asha"]) = None
  /\ HtmlRendererCompact.renderSignatureFooterHTML (formOf [named "Asha"]) = None.
Proof.
  exact (proj1 (proj2 (proj2 (signature_footer_presence (formOf [named "Asha"]))))
           eq_refl eq_refl).
Defined.


(** ** Prices and the unit type *)

Lemma replace_keeps_others (s : jsstring) :
  forallb (fun c => negb (isRupeeOrComma c)) s = true ->
  replace_rupee_comma s = s.
Proof.
  unfold replace_rupee_comma. induction s as [|c s IH]; simpl; [reflexivity|].
  intros H. apply andb_true_iff in H as [Hc Hs]. rewrite Hc. f_equal. now apply IH.
Qed.

Lemma replace_removes_all (s : jsstring) :
  forallb (fun c => negb (isRupeeOrComma c)) (replace_rupee_comma s) = true.
Proof.
  unfold replace_rupee_comma. apply forallb_forall. intros c Hc.
  now apply filter_In in Hc as [_ Hc].
Qed.

Lemma replace_keeps_digits (s : jsstring) :
  filter isDigitOrDecimalSeparator (replace_rupee_comma s)
  = filter isDigitOrDecimalSeparator s.
Proof.
  unfold replace_rupee_comma. induction s as [|c s IH]; simpl; [reflexivity|].
  destruct (isRupeeOrComma c) eqn:Hrc; simpl.
  - assert (Hd : isDigitOrDecimalSeparator c = false).
    { unfold isRupeeOrComma in Hrc. apply orb_true_iff in Hrc as [H|H];
        apply N.eqb_eq in H; subst c; reflexivity. }
    now rewrite Hd.
  - destruct (isDigitOrDecimalSeparator c); [f_equal|]; exact IH.
Qed.

Lemma priceClean_orEmpty (v : field) :
  (if truthy v then replace_rupee_comma (orEmpty v) else [])
  = replace_rupee_comma (orEmpty v).
Proof. destruct v as [[|c s]|]; reflexivity. Qed.

(** C5 (as the code has it).  The unit price and the total price are shown
    with every rupee sign (U+20B9) and every comma removed, and nothing else
    removed: the result has no rupee sign and no comma, keeps every digit
    and decimal point in order, and a price without rupee sign or comma is
    shown unchanged.  The rupee sign followed by 12,34,567 gives 1234567.
    The other fields of the apartment block are shown as stored.  The
    document renderers put the cleaned price in a value field, the preview
    in 15 cells. *)
Theorem C5_price_cleaning (fd : FormData) :
  let shown := [ unitPriceText (HtmlRenderer.renderApartmentFormHTML fd);
                 unitPriceText (HtmlRendererCompact.renderApartmentFormHTML fd);
                 Preview.priceClean (unitPrice fd) ] in
  let shownTotal := [ totalPriceText (HtmlRenderer.renderApartmentFormHTML fd);
                      totalPriceText (HtmlRendererCompact.renderApartmentFormHTML fd);
                      Preview.priceClean (totalPrice fd) ] in
  (forall p, In p shown ->
     p = replace_rupee_comma (orEmpty (unitPrice fd))
     /\ forallb (fun c => negb (isRupeeOrComma c)) p = true
     /\ filter isDigitOrDecimalSeparator p
        = filter isDigitOrDecimalSeparator (orEmpty (unitPrice fd))
     /\ (forallb (fun c => negb (isRupeeOrComma c)) (orEmpty (unitPrice fd)) = true ->
         p = orEmpty (unitPrice fd)))
  /\ (forall p, In p shownTotal ->
        p = replace_rupee_comma (orEmpty (totalPrice fd))
        /\ forallb (fun c => negb (isRupeeOrComma c)) p = true
        /\ filter isDigitOrDecimalSeparator p
           = filter isDigitOrDecimalSeparator (orEmpty (totalPrice fd))
        /\ (forallb (fun c => negb (isRupeeOrComma c)) (orEmpty (totalPrice fd)) = true ->
            p = orEmpty (totalPrice fd)))
  /\ replace_rupee_comma (rupee :: lit "12,34,567") = lit "1234567"
  /\ (forall ap, In ap [HtmlRenderer.renderApartmentFormHTML fd;
                        HtmlRendererCompact.renderApartmentFormHTML fd] ->
        towerText ap = orEmpty (tower fd)
        /\ apartmentNumberText ap = orEmpty (apartmentNumber fd)
        /\ floorText ap = orEmpty (floor fd)
        /\ carpetAreaSqmText ap = orEmpty (carpetAreaSqm fd)
        /\ carpetAreaSqftText ap = orEmpty (carpetAreaSqft fd)
        /\ declarationDateText ap = orEmpty (declarationDate fd)
        /\ declarationPlaceText ap = orEmpty (declarationPlace fd))
  /\ (forall ap, Preview.renderApartmentForm (Some fd) = Some ap ->
        cells (unitPriceCells ap)
        = cells (Preview.renderCharacterBoxes
                   (Some (replace_rupee_comma (orEmpty (unitPrice fd)))) 15 12)
        /\ cells (totalPriceCells ap)
           = cells (Preview.renderCharacterBoxes
                      (Some (replace_rupee_comma (orEmpty (totalPrice fd)))) 15 12)
        /\ towerCells ap = Preview.renderCharacterBoxes (Some (orEmpty (tower fd))) 15 12
        /\ floorCells ap = Preview.renderCharacterBoxes (Some (orEmpty (floor fd))) 15 12).
Proof.
  assert (Hclean : forall v p,
            p = replace_rupee_comma (orEmpty v) ->
            p = replace_rupee_comma (orEmpty v)
            /\ forallb (fun c => negb (isRupeeOrComma c)) p = true
            /\ filter isDigitOrDecimalSeparator p
               = filter isDigitOrDecimalSeparator (orEmpty v)
            /\ (forallb (fun c => negb (isRupeeOrComma c)) (orEmpty v) = true ->
                p = orEmpty v)).
  { intros v p ->. split; [reflexivity|]. split; [apply replace_removes_all|].
    split; [apply replace_keeps_digits | apply replace_keeps_others]. }
  cbv zeta. split; [|split; [|split; [|split]]].
  - intros p [<-|[<-|[<-|[]]]]; apply Hclean;
      cbn [unitPriceText HtmlRenderer.renderApartmentFormHTML
             HtmlRendererCompact.renderApartmentFormHTML];
      unfold HtmlRenderer.unitPriceClean, HtmlRendererCompact.unitPriceClean,
        Preview.priceClean; apply priceClean_orEmpty.
  - intros p [<-|[<-|[<-|[]]]]; apply Hclean;
      cbn [totalPriceText HtmlRenderer.renderApartmentFormHTML
             HtmlRendererCompact.renderApartmentFormHTML];
      unfold HtmlRenderer.totalPriceClean, HtmlRendererCompact.totalPriceClean,
        Preview.priceClean; apply priceClean_orEmpty.
  - reflexivity.
  - intros ap [<-|[<-|[]]]; repeat split.
  - intros ap H. injection H as <-.
    cbn [unitPriceCells totalPriceCells towerCells floorCells].
    unfold Preview.priceClean. rewrite !priceClean_orEmpty.
    repeat split.
Qed.

Lemma C5_price_cleaning_witness :
  unitPriceText (HtmlRenderer.renderApartmentFormHTML
                   (withPrices (Some (rupee :: lit "12,34,567")) None (formOf [])))
  = replace_rupee_comma (rupee :: lit "12,34,567")
  /\ replace_rupee_comma (rupee :: lit "12,34,567") = lit "1234567".
Proof.
  pose proof (C5_price_cleaning
                (withPrices (Some (rupee :: lit "12,34,567")) None (formOf [])))
    as (Hu & _ & Hex & _).
  split; [|exact Hex].
  apply (Hu _ (or_introl eq_refl)).
Defined.

(** A price written with a dollar sign and a space keeps both: only the
    rupee sign and the comma are removed. *)
Lemma C5_other_symbols_are_kept :
  unitPriceText (HtmlRenderer.renderApartmentFormHTML
                   (withPrices (Some (lit "$ 1,000")) None (formOf [])))
  = lit "$ 1000"
  /\ forallb isDigitOrDecimalSeparator
       (unitPriceText (HtmlRenderer.renderApartmentFormHTML
                         (withPrices (Some (lit "$ 1,000")) None (formOf []))))
     = false
  /\ Preview.priceClean (Some (lit "$ 1,000")) = lit "$ 1000".
Proof. repeat split. Qed.

(** The unit type shown by the document renderers: 3 BHK for [3bhk], 4 BHK
    for [4bhk], nothing for anything else. *)
Lemma document_bhkTypeDisplay (fd : FormData) :
  HtmlRenderer.bhkTypeDisplay fd = HtmlRendererCompact.bhkTypeDisplay fd
  /\ (bhkType fd = Some (lit "3bhk") -> HtmlRenderer.bhkTypeDisplay fd = lit "3 BHK")
  /\ (bhkType fd = Some (lit "4bhk") -> HtmlRenderer.bhkTypeDisplay fd = lit "4 BHK")
  /\ (bhkType fd <> Some (lit "3bhk") -> bhkType fd <> Some (lit "4bhk") ->
      HtmlRenderer.bhkTypeDisplay fd = []).
Proof.
  split; [reflexivity|]. unfold HtmlRenderer.bhkTypeDisplay.
  split; [|split].
  - intros ->. reflexivity.
  - intros ->. reflexivity.
  - intros H3 H4.
    destruct (field_is (bhkType fd) (lit "3bhk")) eqn:E3;
      [apply field_is_eq in E3; contradiction|].
    destruct (field_is (bhkType fd) (lit "4bhk")) eqn:E4;
      [apply field_is_eq in E4; contradiction|].
    reflexivity.
Qed.

(** In the preview every non-empty value other than [3bhk] is shown as
    4 BHK. *)
Lemma preview_bhkTypeDisplay_other (fd : FormData) :
  truthy (bhkType fd) = true -> bhkType fd <> Some (lit "3bhk") ->
  Preview.bhkTypeDisplay fd = lit "4 BHK".
Proof.
  intros Ht H3. unfold Preview.bhkTypeDisplay. rewrite Ht.
  destruct (field_is (bhkType fd) (lit "3bhk")) eqn:E3;
    [apply field_is_eq in E3; contradiction | reflexivity].
Qed.

(** C7, the preview at an unrecognised unit type.  For the stored value
    [2bhk] the two document renderers show nothing and the preview shows
    4 BHK; on [3bhk], [4bhk] and a missing value the preview agrees with
    the document renderers. *)
Theorem C7_preview_unrecognised_unit_type :
  Preview.bhkTypeDisplay (withBhkType (Some (lit "2bhk")) (formOf [])) = lit "4 BHK"
  /\ HtmlRenderer.bhkTypeDisplay (withBhkType (Some (lit "2bhk")) (formOf [])) = []
  /\ HtmlRendererCompact.bhkTypeDisplay (withBhkType (Some (lit "2bhk")) (formOf [])) = []
  /\ Preview.bhkTypeDisplay (withBhkType (Some (lit "3bhk")) (formOf [])) = lit "3 BHK"
  /\ Preview.bhkTypeDisplay (withBhkType (Some (lit "4bhk")) (formOf [])) = lit "4 BHK"
  /\ Preview.bhkTypeDisplay (withBhkType None (formOf [])) = []
  /\ typeCells_text
       (Preview.renderApartmentForm (Some (withBhkType (Some (lit "2bhk")) (formOf []))))
     = Some (lit "4 BHK").
Proof. repeat split. Qed.

(** ** The chunks of a multi-line field *)

Section Scan.

Variable c : nat.

Lemma Forall_flush (P : jsstring -> Prop) (cur : jsstring) (rest : list jsstring) :
  (cur <> [] -> P cur) -> Forall P rest -> Forall P (flush cur rest).
Proof.
  intros Hcur Hrest. destruct cur as [|x cur]; simpl; [exact Hrest|].
  constructor; [apply Hcur; discriminate | exact Hrest].
Qed.

Lemma concat_flush (cur : jsstring) (rest : list jsstring) :
  concat (flush cur rest) = cur ++ concat rest.
Proof. destruct cur; reflexivity. Qed.

(** The chunks, joined, are the string without its line terminators. *)
Lemma concat_scan (s cur : jsstring) (room : nat) :
  concat (scan c cur room s) = cur ++ withoutLineTerminators s.
Proof.
  revert cur room; induction s as [|x s IH]; intros cur room; simpl.
  - now rewrite concat_flush.
  - destruct (isLineTerminator x) eqn:Hx; simpl.
    + now rewrite concat_flush, IH.
    + destruct room as [|room'].
      * now rewrite concat_flush, IH.
      * now rewrite IH, <- app_assoc.
Qed.

(** No chunk is longer than [c]. *)
Lemma scan_chunk_length (s cur : jsstring) (room : nat) :
  1 <= c -> length cur + room <= c ->
  Forall (fun ch => length ch <= c) (scan c cur room s).
Proof.
  intros Hc. revert cur room; induction s as [|x s IH]; intros cur room Hroom; simpl.
  - apply Forall_flush; [lia | constructor].
  - destruct (isLineTerminator x).
    + apply Forall_flush; [lia | apply IH; simpl; lia].
    + destruct room as [|room'].
      * apply Forall_flush; [lia | apply IH; simpl; lia].
      * apply IH. rewrite length_app. simpl. lia.
Qed.

(** No chunk holds a line terminator. *)
Lemma scan_chunk_clean (s cur : jsstring) (room : nat) :
  Forall (fun u => isLineTerminator u = false) cur ->
  Forall (Forall (fun u => isLineTerminator u = false)) (scan c cur room s).
Proof.
  revert cur room; induction s as [|x s IH]; intros cur room Hcur; simpl.
  - apply Forall_flush; [intros _; exact Hcur | constructor].
  - destruct (isLineTerminator x) eqn:Hx.
    + apply Forall_flush; [intros _; exact Hcur | apply IH; constructor].
    + destruct room as [|room'].
      * apply Forall_flush; [intros _; exact Hcur|].
        apply IH. constructor; [exact Hx | constructor].
      * apply IH. apply Forall_app. split; [exact Hcur|].
        constructor; [exact Hx | constructor].
Qed.

(** Every chunk is a run of consecutive characters of the string. *)
Lemma scan_chunk_contiguous (s cur p : jsstring) (room : nat) :
  Forall (fun ch => exists pre post, p ++ cur ++ s = pre ++ ch ++ post)
    (scan c cur room s).
Proof.
  revert cur p room; induction s as [|x s IH]; intros cur p room; simpl.
  - apply Forall_flush; [|constructor].
    intros _. exists p, []. reflexivity.
  - assert (Hcur : exists pre post, p ++ cur ++ x :: s = pre ++ cur ++ post)
      by (exists p, (x :: s); reflexivity).
    destruct (isLineTerminator x).
    + apply Forall_flush; [intros _; exact Hcur|].
      specialize (IH [] (p ++ cur ++ [x]) c).
      eapply Forall_impl; [|exact IH].
      intros ch (pre & post & H). exists pre, post. rewrite <- H.
      simpl. now rewrite <- !app_assoc.
    + destruct room as [|room'].
      * apply Forall_flush; [intros _; exact Hcur|].
        specialize (IH [x] (p ++ cur) (pred c)).
        eapply Forall_impl; [|exact IH].
        intros ch (pre & post & H). exists pre, post. rewrite <- H.
        simpl. now rewrite <- !app_assoc.
      * specialize (IH (cur ++ [x]) p room').
        eapply Forall_impl; [|exact IH].
        intros ch (pre & post & H). exists pre, post. rewrite <- H.
        simpl. now rewrite <- !app_assoc.
Qed.

End Scan.

Lemma without_terminators_id (s : jsstring) :
  forallb (fun u => negb (isLineTerminator u)) s = true ->
  withoutLineTerminators s = s.
Proof.
  unfold withoutLineTerminators. induction s as [|x s IH]; simpl; [reflexivity|].
  intros H. apply andb_true_iff in H as [Hx Hs]. rewrite Hx. f_equal. now apply IH.
Qed.

(** The line shown in row [i]: a chunk, or nothing. *)
Lemma index_or_empty_cases (l : list jsstring) (i : nat) :
  index_or_empty l i = [] \/ In (index_or_empty l i) l.
Proof.
  unfold index_or_empty. destruct (nth_error l i) as [[|x t]|] eqn:E; auto.
  right. eapply nth_error_In. exact E.
Qed.

Lemma index_or_empty_beyond (l : list jsstring) (i : nat) :
  length l <= i -> index_or_empty l i = [].
Proof.
  intros H. unfold index_or_empty.
  now rewrite (proj2 (nth_error_None l i) H).
Qed.

Lemma concat_index_or_empty (l : list jsstring) (r : nat) :
  concat (array_from r (fun i => index_or_empty l i)) = concat (firstn r l).
Proof.
  revert l; induction r as [|r IH]; intros l; [reflexivity|].
  rewrite array_from_S. destruct l as [|x l].
  - simpl. transitivity (concat (firstn r (@nil jsstring)));
      [|now rewrite firstn_nil].
    rewrite <- IH. f_equal. apply array_from_ext. intros [|i]; reflexivity.
  - simpl. rewrite <- IH. f_equal. now destruct x.
Qed.

Lemma orEmpty_Some (s : jsstring) : orEmpty (Some s) = s.
Proof. now destruct s. Qed.

(** Reading one row back gives the characters it was filled with. *)
Lemma readBack_cells (t : jsstring) (k : nat) :
  concat (filter nonEmpty (map single t ++ blankCells k)) = t.
Proof.
  rewrite filter_app.
  assert (Hb : filter nonEmpty (blankCells k) = []).
  { induction k as [|k IH]; [reflexivity | exact IH]. }
  rewrite Hb, app_nil_r.
  induction t as [|x t IH]; [reflexivity|]. simpl. now rewrite IH.
Qed.

Lemma readBack_cons (row : CharacterBoxes) (rows : list CharacterBoxes) :
  readBack (row :: rows) = concat (filter nonEmpty (cells row)) ++ readBack rows.
Proof.
  unfold readBack. simpl. now rewrite filter_app, concat_app.
Qed.

Lemma readBack_row (b : Backend) (line : jsstring) (n : nat) (w : Q) :
  concat (filter nonEmpty (cells (characterBoxes b (Some line) n w)))
  = firstn n line.
Proof.
  now rewrite cells_characterBoxes, orEmpty_Some, readBack_cells.
Qed.

Lemma readBack_rows (b : Backend) (n : nat) (w : Q) (lines : list jsstring) :
  readBack (map (fun line => characterBoxes b (Some line) n w) lines)
  = concat (map (firstn n) lines).
Proof.
  induction lines as [|line lines IH]; [reflexivity|].
  simpl map. now rewrite readBack_cons, readBack_row, IH.
Qed.

Lemma map_firstn_id (n : nat) (lines : list jsstring) :
  Forall (fun ch => length ch <= n) lines -> map (firstn n) lines = lines.
Proof.
  induction 1 as [|ch lines Hch _ IH]; [reflexivity|].
  simpl. now rewrite firstn_all2, IH by exact Hch.
Qed.

Lemma concat_length_bound (n : nat) (lines : list jsstring) :
  Forall (fun ch => length ch <= n) lines ->
  length (concat lines) <= n * length lines.
Proof.
  induction 1 as [|ch lines Hch _ IH]; simpl; [lia|].
  rewrite length_app. nia.
Qed.

(** What the rows of a multi-line field read back to: the first [rowCount]
    chunks of the value. *)
Lemma readBack_multiLineRows (b : Backend) (c r : nat) (v : field) :
  1 <= c ->
  readBack (multiLineRows b c r v) = concat (firstn r (match_chunks c (orEmpty v))).
Proof.
  intros Hc. unfold multiLineRows, array_from.
  rewrite <- (map_map (fun i => index_or_empty (match_chunks c (orEmpty v)) i)
                      (fun line => characterBoxes b (Some line) c 20)).
  rewrite readBack_rows, map_firstn_id.
  - apply concat_index_or_empty.
  - apply Forall_forall. intros line Hline. apply in_map_iff in Hline as (i & <- & _).
    destruct (index_or_empty_cases (match_chunks c (orEmpty v)) i) as [-> | Hin];
      [simpl; lia|].
    pose proof (@scan_chunk_length c (orEmpty v) [] c Hc) as Hall.
    rewrite Forall_forall in Hall. apply Hall; [simpl; lia | exact Hin].
Qed.

Lemma firstn_In (A : Type) (n : nat) (l : list A) (x : A) :
  In x (firstn n l) -> In x l.
Proof.
  intros H. rewrite <- (firstn_skipn n l). apply in_or_app. now left.
Qed.

Lemma cells_length (b : Backend) (v : field) (n : nat) (w : Q) :
  length (cells (characterBoxes b v n w)) = n.
Proof.
  rewrite cells_characterBoxes, length_app, length_map, length_firstn, blankCells_length.
  lia.
Qed.

(** Every row of a multi-line field shows one chunk of the value, or nothing. *)
Lemma multiLineRows_row (b : Backend) (c r : nat) (v : field) (row : CharacterBoxes) :
  In row (multiLineRows b c r v) ->
  exists line,
    (line = [] \/ In line (match_chunks c (orEmpty v)))
    /\ row = characterBoxes b (Some line) c 20.
Proof.
  unfold multiLineRows, array_from. intros H.
  apply in_map_iff in H as (i & <- & _).
  exists (index_or_empty (match_chunks c (orEmpty v)) i).
  split; [apply index_or_empty_cases | reflexivity].
Qed.

Lemma multiLineRows_nth (b : Backend) (c r : nat) (v : field) (i : nat)
  (row : CharacterBoxes) :
  nth_error (multiLineRows b c r v) i = Some row ->
  row = characterBoxes b (Some (index_or_empty (match_chunks c (orEmpty v)) i)) c 20.
Proof.
  unfold multiLineRows, array_from. intros H.
  rewrite nth_error_map, nth_error_seq in H.
  destruct (i <? r); [|discriminate]. simpl in H. now injection H as <-.
Qed.

(** C6 (as the code has it).  For a value [s], [c >= 1] cells per row and
    [r] rows, the rows of a multi-line field, read back in order with the
    empty cells dropped, give the first [r] chunks of [s]; this is a prefix
    of [s] with its line terminators (LF, CR, U+2028, U+2029) removed, of
    length at most [c * r], and a prefix of [s] itself when [s] has no line
    terminator.  There are [r] rows of [c] cells; a row beyond the chunks of
    [s] is entirely empty, and chunks beyond [r] rows do not appear.  The
    tax-ward rows of an applicant block are the case [c = 20, r = 2], its
    address rows the case [c = 20, r = 3]. *)
Theorem C6_multi_row_read_back (b : Backend) (c r : nat) (v : field) :
  1 <= c ->
  length (multiLineRows b c r v) = r
  /\ (forall row, In row (multiLineRows b c r v) -> length (cells row) = c)
  /\ readBack (multiLineRows b c r v)
     = concat (firstn r (match_chunks c (orEmpty v)))
  /\ is_prefix (readBack (multiLineRows b c r v))
       (withoutLineTerminators (orEmpty v)) = true
  /\ length (readBack (multiLineRows b c r v)) <= c * r
  /\ (forallb (fun u => negb (isLineTerminator u)) (orEmpty v) = true ->
      is_prefix (readBack (multiLineRows b c r v)) (orEmpty v) = true)
  /\ (forall i row,
        length (match_chunks c (orEmpty v)) <= i ->
        nth_error (multiLineRows b c r v) i = Some row ->
        cells row = blankCells c)
  /\ (forall fd a n block,
        applicantBlock b fd (Some a) n = Some block ->
        itWardRows block = multiLineRows b 20 2 (itWard a)
        /\ addressRows block = multiLineRows b 20 3 (correspondenceAddress a)).
Proof.
  intros Hc.
  assert (Hprefix : is_prefix (readBack (multiLineRows b c r v))
                      (withoutLineTerminators (orEmpty v)) = true).
  { rewrite readBack_multiLineRows by exact Hc. apply is_prefix_spec.
    exists (concat (skipn r (match_chunks c (orEmpty v)))).
    rewrite <- concat_app, firstn_skipn. unfold match_chunks.
    now rewrite concat_scan. }
  split; [apply array_from_length|].
  split.
  { intros row Hrow. apply multiLineRows_row in Hrow as (line & _ & ->).
    apply cells_length. }
  split; [now apply readBack_multiLineRows|].
  split; [exact Hprefix|].
  split.
  { rewrite readBack_multiLineRows by exact Hc.
    pose proof (@scan_chunk_length c (orEmpty v) [] c Hc) as Hall.
    assert (Hfirst : Forall (fun ch => length ch <= c)
                       (firstn r (match_chunks c (orEmpty v)))).
    { apply Forall_forall. intros ch Hch. apply firstn_In in Hch. revert ch Hch.
      apply Forall_forall. apply Hall. simpl. lia. }
    apply concat_length_bound in Hfirst.
    pose proof (firstn_le_length r (match_chunks c (orEmpty v))) as Hlen. nia. }
  split.
  { intros Hclean. now rewrite without_terminators_id in Hprefix. }
  split.
  { intros i row Hi Hrow. apply multiLineRows_nth in Hrow as ->.
    rewrite (index_or_empty_beyond _ Hi), cells_characterBoxes. simpl.
    now rewrite firstn_nil, Nat.sub_0_r. }
  intros fd a n block. apply block_multi_line_rows.
Qed.

Lemma C6_multi_row_read_back_witness :
  1 <= 20
  /\ readBack (multiLineRows DocumentBackend 20 2
                 (Some (lit "Ward 7, Circle 2, Range 4, New Delhi, Special Range")))
     = lit "Ward 7, Circle 2, Range 4, New Delhi, Sp"
  /\ is_prefix
       (readBack (multiLineRows DocumentBackend 20 2
                    (Some (lit "Ward 7, Circle 2, Range 4, New Delhi, Special Range"))))
       (lit "Ward 7, Circle 2, Range 4, New Delhi, Special Range") = true.
Proof.
  assert (H : 1 <= 20) by lia.
  split; [exact H|].
  pose proof (@C6_multi_row_read_back DocumentBackend 20 2
                (Some (lit "Ward 7, Circle 2, Range 4, New Delhi, Special Range")) H)
    as (_ & _ & Hread & _ & _ & Hclean & _).
  split.
  - rewrite Hread. reflexivity.
  - apply Hclean. reflexivity.
Defined.

(** A tax-ward value of two lines, [ab] and [cd]: the rows read back to
    [abcd], which is not a prefix of the value, since the line feed between
    the lines is in no cell. *)
Lemma C6_line_feed_is_dropped :
  exists block,
    HtmlRenderer.renderApplicantFormHTML
      (Some (withItWard (Some (lit "ab" ++ [10%N] ++ lit "cd")) (named "Asha"))) 1
      (formOf [withItWard (Some (lit "ab" ++ [10%N] ++ lit "cd")) (named "Asha")])
    = Some block
    /\ readBack (itWardRows block) = lit "abcd"
    /\ is_prefix (readBack (itWardRows block)) (lit "ab" ++ [10%N] ++ lit "cd") = false.
Proof.
  eexists. split; [reflexivity|]. split; reflexivity.
Qed.

(** C10.  In every renderer, no cell of a row of a multi-line field holds a
    line terminator, the line feed in particular: a cell is empty or holds
    one character that is not a line terminator; every row shows a run of
    consecutive characters of the value, so no row spans a line break.  This
    holds for the tax-ward and address rows of every applicant block. *)
Theorem C10_no_line_terminator_in_cells (b : Backend) (c r : nat) (v : field) :
  (forall row cell u,
     In row (multiLineRows b c r v) -> In cell (cells row) -> In u cell ->
     isLineTerminator u = false /\ u <> 10%N)
  /\ (forall row,
        In row (multiLineRows b c r v) ->
        exists pre post, orEmpty v = pre ++ readBack [row] ++ post)
  /\ (forall fd a n block row cell u,
        applicantBlock b fd (Some a) n = Some block ->
        In row (itWardRows block ++ addressRows block) ->
        In cell (cells row) -> In u cell ->
        isLineTerminator u = false /\ u <> 10%N).
Proof.
  assert (Hgen : forall c r v row cell u,
            In row (multiLineRows b c r v) -> In cell (cells row) -> In u cell ->
            isLineTerminator u = false /\ u <> 10%N).
  { clear c r v. intros c r v row cell u Hrow Hcell Hu.
    assert (Hlt : isLineTerminator u = false).
    { apply multiLineRows_row in Hrow as (line & Hline & ->).
      rewrite cells_characterBoxes, orEmpty_Some in Hcell.
      apply in_app_or in Hcell as [Hcell | Hcell].
      - apply in_map_iff in Hcell as (x & <- & Hx). destruct Hu as [<- | []].
        apply firstn_In in Hx. destruct Hline as [-> | Hline]; [destruct Hx|].
        pose proof (@scan_chunk_clean c (orEmpty v) [] c (Forall_nil _)) as Hall.
        rewrite Forall_forall in Hall. specialize (Hall _ Hline).
        rewrite Forall_forall in Hall. now apply Hall.
      - apply repeat_spec in Hcell. subst cell. destruct Hu. }
    split; [exact Hlt|]. intros ->. discriminate Hlt. }
  split; [apply Hgen|]. split.
  - intros row Hrow. apply multiLineRows_row in Hrow as (line & Hline & ->).
    unfold readBack. simpl. rewrite app_nil_r, readBack_row.
    destruct Hline as [-> | Hline].
    + exists [], (orEmpty v). now rewrite firstn_nil.
    + pose proof (@scan_chunk_contiguous c (orEmpty v) [] [] c) as Hall.
      rewrite Forall_forall in Hall. destruct (Hall _ Hline) as (pre & post & H).
      exists pre, (skipn c line ++ post). simpl in H. rewrite H. f_equal.
      now rewrite app_assoc, firstn_skipn.
  - intros fd a n block row cell u Hblock Hrow.
    destruct (block_multi_line_rows _ _ _ _ Hblock) as [Hw Ha].
    rewrite Hw, Ha in Hrow. apply in_app_or in Hrow as [Hrow | Hrow];
      eapply Hgen; exact Hrow.
Qed.

Lemma C10_no_line_terminator_in_cells_witness :
  In (characterBoxes PreviewBackend (Some (lit "Gurugram")) 20 20)
     (multiLineRows PreviewBackend 20 3
        (Some (lit "12 MG Road" ++ [10%N] ++ lit "Gurugram")))
  /\ isLineTerminator 71%N = false
  /\ 71%N <> 10%N.
Proof.
  assert (Hrow : In (characterBoxes PreviewBackend (Some (lit "Gurugram")) 20 20)
                   (multiLineRows PreviewBackend 20 3
                      (Some (lit "12 MG Road" ++ [10%N] ++ lit "Gurugram")))).
  { right. left. reflexivity. }
  split; [exact Hrow|].
  apply (proj1 (C10_no_line_terminator_in_cells PreviewBackend 20 3
                  (Some (lit "12 MG Road" ++ [10%N] ++ lit "Gurugram")))
           (characterBoxes PreviewBackend (Some (lit "Gurugram")) 20 20)
           (lit "G") 71%N Hrow).
  - left. reflexivity.
  - left. reflexivity.
Defined.

(** * Further properties of the renderers *)

(** ** Reading rows back *)

Lemma readBack_one (b : Backend) (v : field) (n : nat) (w : Q) :
  readBack [characterBoxes b v n w] = firstn n (orEmpty v).
Proof.
  unfold readBack. simpl. rewrite app_nil_r, cells_characterBoxes.
  apply readBack_cells.
Qed.

(** X1.  A row of [n] cells reads back to the first [n] characters of its
    value, in every renderer: to the whole value exactly when the value has
    at most [n] characters, and to nothing for a missing value. *)
Theorem row_read_back (b : Backend) (s : jsstring) (n : nat) (w : Q) :
  readBack [characterBoxes b (Some s) n w] = firstn n s
  /\ (readBack [characterBoxes b (Some s) n w] = s <-> length s <= n)
  /\ readBack [characterBoxes b None n w] = [].
Proof.
  rewrite !readBack_one, orEmpty_Some. split; [reflexivity|]. split.
  - split.
    + intros H. apply (f_equal (@length codeunit)) in H.
      rewrite length_firstn in H. lia.
    + apply firstn_all2.
  - simpl. apply firstn_nil.
Qed.

Section ScanMore.

Variable c : nat.
Hypothesis c_pos : 1 <= c.

(** Without line terminators the chunks cut the string every [c]
    characters: the first [r] chunks are its first [c * r] characters. *)
Lemma scan_firstn (s cur : jsstring) (room r : nat) :
  forallb (fun u => negb (isLineTerminator u)) s = true ->
  length cur + room = c ->
  concat (firstn r (scan c cur room s)) = firstn (c * r) (cur ++ s).
Proof.
  revert cur room r; induction s as [|x s IH]; intros cur room r Hs Hroom.
  - simpl scan. rewrite app_nil_r. destruct cur as [|y cur]; simpl flush.
    + now rewrite !firstn_nil.
    + destruct r as [|r].
      * now rewrite Nat.mul_0_r.
      * simpl firstn at 1. rewrite firstn_nil. simpl concat. rewrite app_nil_r.
        symmetry. apply firstn_all2. simpl in *. nia.
  - simpl in Hs. apply andb_true_iff in Hs as [Hx Hs].
    apply negb_true_iff in Hx. simpl scan. rewrite Hx.
    destruct room as [|room].
    + assert (Hcur : length cur = c) by lia.
      destruct cur as [|y cur]; [simpl in Hcur; lia|]. simpl flush.
      destruct r as [|r].
      * now rewrite Nat.mul_0_r.
      * simpl firstn at 1. simpl concat.
        rewrite (IH [x] (pred c) r Hs) by (simpl; lia).
        replace (c * S r) with (length (y :: cur) + c * r) by lia.
        now rewrite firstn_app_2.
    + rewrite (IH (cur ++ [x]) room r Hs) by (rewrite length_app; simpl; lia).
      now rewrite <- app_assoc.
Qed.

(** Every chunk has at least one character. *)
Lemma scan_chunk_non_empty (s cur : jsstring) (room : nat) :
  Forall (fun ch => ch <> []) (scan c cur room s).
Proof.
  revert cur room; induction s as [|x s IH]; intros cur room; simpl.
  - apply Forall_flush; [auto | constructor].
  - destruct (isLineTerminator x).
    + apply Forall_flush; [auto | apply IH].
    + destruct room; [apply Forall_flush; [auto | apply IH] | apply IH].
Qed.

Lemma flush_app (cur : jsstring) (l1 l2 : list jsstring) :
  flush cur l1 ++ l2 = flush cur (l1 ++ l2).
Proof. now destruct cur. Qed.

(** A line terminator separates the chunks before it from those after it. *)
Lemma scan_line_break (s1 s2 cur : jsstring) (room : nat) (t : codeunit) :
  isLineTerminator t = true ->
  scan c cur room (s1 ++ t :: s2) = scan c cur room s1 ++ scan c [] c s2.
Proof.
  intros Ht. revert cur room; induction s1 as [|x s1 IH]; intros cur room.
  - simpl. rewrite Ht. now rewrite flush_app.
  - simpl. destruct (isLineTerminator x).
    + now rewrite IH, flush_app.
    + destruct room; [now rewrite IH, flush_app | apply IH].
Qed.

(** A line of at most [c] characters is one chunk. *)
Lemma scan_short_line (s cur : jsstring) (room : nat) :
  forallb (fun u => negb (isLineTerminator u)) s = true ->
  length s <= room ->
  scan c cur room s = flush (cur ++ s) [].
Proof.
  clear c_pos.
  revert cur room; induction s as [|x s IH]; intros cur room Hs Hroom.
  - simpl. now rewrite app_nil_r.
  - simpl in Hs. apply andb_true_iff in Hs as [Hx Hs].
    apply negb_true_iff in Hx. simpl scan. rewrite Hx.
    destruct room as [|room]; [simpl in Hroom; lia|].
    rewrite (IH (cur ++ [x]) room Hs) by (simpl in Hroom; lia).
    now rewrite <- app_assoc.
Qed.

End ScanMore.

Lemma array_from_const (A : Type) (k : nat) (x : A) :
  array_from k (fun _ => x) = repeat x k.
Proof.
  induction k as [|k IH]; [reflexivity|].
  rewrite array_from_S. simpl. now rewrite IH.
Qed.

Lemma multiLineRows_read_each (b : Backend) (c r : nat) (v : field) :
  map (fun row => readBack [row]) (multiLineRows b c r v)
  = array_from r (fun i => firstn c (index_or_empty (match_chunks c (orEmpty v)) i)).
Proof.
  unfold multiLineRows, array_from. rewrite map_map. apply map_ext.
  intros i. now rewrite readBack_one, orEmpty_Some.
Qed.

(** X2.  For a value without line terminators, the rows of a multi-line
    field ([c >= 1] cells in each of [r] rows) read back to exactly the
    first [c * r] characters of the value, so a value of at most [c * r]
    characters is shown whole.  For an applicant block this is the first 40
    characters of the tax ward and the first 60 of the address. *)
Theorem multi_row_exact_truncation (b : Backend) (c r : nat) (v : field) :
  1 <= c ->
  forallb (fun u => negb (isLineTerminator u)) (orEmpty v) = true ->
  readBack (multiLineRows b c r v) = firstn (c * r) (orEmpty v)
  /\ (length (orEmpty v) <= c * r -> readBack (multiLineRows b c r v) = orEmpty v)
  /\ (c * r < length (orEmpty v) -> length (readBack (multiLineRows b c r v)) = c * r).
Proof.
  intros Hc Hclean.
  assert (H : readBack (multiLineRows b c r v) = firstn (c * r) (orEmpty v)).
  { rewrite readBack_multiLineRows by exact Hc. unfold match_chunks.
    now rewrite (@scan_firstn c Hc (orEmpty v) [] c r Hclean) by (simpl; lia). }
  split; [exact H|]. rewrite H. split.
  - apply firstn_all2.
  - intros Hlong. rewrite length_firstn. lia.
Qed.

Lemma multi_row_exact_truncation_witness :
  readBack (multiLineRows DocumentBackend 20 3
              (Some (lit "Flat 12, Tower B, Sector 78, Gurugram, Haryana 122004, India, near the metro")))
  = lit "Flat 12, Tower B, Sector 78, Gurugram, Haryana 122004, India"
  /\ readBack (multiLineRows DocumentBackend 20 3 (Some (lit "Flat 12, Tower B")))
     = lit "Flat 12, Tower B".
Proof.
  split.
  - exact (proj1 (@multi_row_exact_truncation DocumentBackend 20 3
             (Some (lit "Flat 12, Tower B, Sector 78, Gurugram, Haryana 122004, India, near the metro"))
             ltac:(lia) eq_refl)).
  - apply (proj1 (proj2 (@multi_row_exact_truncation DocumentBackend 20 3
             (Some (lit "Flat 12, Tower B")) ltac:(lia) eq_refl))).
    simpl. lia.
Defined.

(** X3.  A line terminator starts a new row: the chunks of a value are the
    chunks of the part before a line terminator followed by the chunks of
    the part after it, and a line of 1 to [c] characters is one chunk.  So a
    value of two such lines fills row 1 with the first line and row 2 with
    the second, and leaves the other rows empty. *)
Theorem line_break_starts_new_row (b : Backend) (c k : nat)
  (l1 l2 : jsstring) (t : codeunit) :
  isLineTerminator t = true ->
  forallb (fun u => negb (isLineTerminator u)) l1 = true ->
  forallb (fun u => negb (isLineTerminator u)) l2 = true ->
  1 <= length l1 <= c -> 1 <= length l2 <= c ->
  match_chunks c (l1 ++ t :: l2) = [l1; l2]
  /\ map (fun row => readBack [row]) (multiLineRows b c (2 + k) (Some (l1 ++ t :: l2)))
     = l1 :: l2 :: repeat [] k
  /\ (forall s1 s2, match_chunks c (s1 ++ t :: s2)
                    = match_chunks c s1 ++ match_chunks c s2).
Proof.
  intros Ht H1 H2 [Hl1 Hc1] [Hl2 Hc2].
  assert (Hc : 1 <= c) by lia.
  assert (Hdist : forall s1 s2, match_chunks c (s1 ++ t :: s2)
                                = match_chunks c s1 ++ match_chunks c s2).
  { intros s1 s2. unfold match_chunks. now apply scan_line_break. }
  assert (Hchunks : match_chunks c (l1 ++ t :: l2) = [l1; l2]).
  { rewrite Hdist. unfold match_chunks.
    rewrite (@scan_short_line c l1 [] c H1), (@scan_short_line c l2 [] c H2) by lia.
    simpl. destruct l1; [simpl in Hl1; lia|]. destruct l2; [simpl in Hl2; lia|].
    reflexivity. }
  split; [exact Hchunks|]. split; [|exact Hdist].
  rewrite multiLineRows_read_each, orEmpty_Some, Hchunks.
  change (2 + k) with (S (S k)). rewrite !array_from_S.
  assert (E1 : index_or_empty [l1; l2] 0 = l1) by (destruct l1; reflexivity).
  assert (E2 : index_or_empty [l1; l2] 1 = l2) by (destruct l2; reflexivity).
  rewrite E1, E2, !firstn_all2 by lia. f_equal. f_equal.
  rewrite <- (array_from_const k (@nil codeunit)).
  apply array_from_ext. intros [|i]; simpl; apply firstn_nil.
Qed.

Lemma line_break_starts_new_row_witness :
  map (fun row => readBack [row])
    (multiLineRows PreviewBackend 20 (2 + 1)
       (Some (lit "12 MG Road" ++ 10%N :: lit "Gurugram")))
  = [lit "12 MG Road"; lit "Gurugram"; []].
Proof.
  exact (proj1 (proj2 (@line_break_starts_new_row PreviewBackend 20 1
           (lit "12 MG Road") (lit "Gurugram") 10%N eq_refl eq_refl eq_refl
           ltac:(simpl; lia) ltac:(simpl; lia)))).
Defined.

(** X4.  The rows of a multi-line field are filled from the top: when a row
    is empty, every row below it is empty too. *)
Theorem rows_fill_from_the_top (b : Backend) (c r : nat) (v : field)
  (i j : nat) (rowi rowj : CharacterBoxes) :
  1 <= c -> i <= j ->
  nth_error (multiLineRows b c r v) i = Some rowi ->
  nth_error (multiLineRows b c r v) j = Some rowj ->
  readBack [rowi] = [] ->
  readBack [rowj] = [] /\ cells rowj = blankCells c.
Proof.
  intros Hc Hij Hi Hj Hempty.
  apply multiLineRows_nth in Hi, Hj. subst rowi rowj.
  rewrite readBack_one, orEmpty_Some in Hempty.
  assert (Hlen : length (match_chunks c (orEmpty v)) <= i).
  { destruct (Nat.le_gt_cases (length (match_chunks c (orEmpty v))) i) as [H|H];
      [exact H | exfalso].
    unfold index_or_empty in Hempty.
    destruct (nth_error (match_chunks c (orEmpty v)) i) as [ch|] eqn:E.
    - pose proof (@scan_chunk_non_empty c (orEmpty v) [] c) as Hall.
      rewrite Forall_forall in Hall.
      specialize (Hall ch (nth_error_In _ _ E)).
      destruct ch as [|y ch]; [now apply Hall|].
      destruct c; [lia | discriminate Hempty].
    - apply nth_error_None in E. lia. }
  rewrite readBack_one, cells_characterBoxes, orEmpty_Some.
  rewrite (index_or_empty_beyond (match_chunks c (orEmpty v)) (i:=j)) by lia.
  simpl. now rewrite firstn_nil, Nat.sub_0_r.
Qed.

Lemma rows_fill_from_the_top_witness :
  exists rowi rowj,
    nth_error (multiLineRows DocumentBackend 20 3 (Some (lit "Ward 7"))) 1 = Some rowi
    /\ nth_error (multiLineRows DocumentBackend 20 3 (Some (lit "Ward 7"))) 2 = Some rowj
    /\ readBack [rowi] = []
    /\ readBack [rowj] = [].
Proof.
  eexists. eexists. split; [reflexivity|]. split; [reflexivity|].
  split; [reflexivity|].
  exact (proj1 (@rows_fill_from_the_top DocumentBackend 20 3 (Some (lit "Ward 7"))
           1 2 _ _ ltac:(lia) ltac:(lia) eq_refl eq_refl eq_refl)).
Defined.

(** ** Applicant blocks across the renderers *)

Lemma field_is_streq (v : field) (l : jsstring) :
  l <> [] -> field_is v l = streq (orEmpty v) l.
Proof.
  intros Hl. destruct v as [[|x s]|]; try reflexivity.
  simpl. destruct l; [contradiction | reflexivity].
Qed.

(** X5.  For the same record and applicant number the preview and
    [lib/html-renderer.ts] produce the same applicant block apart from the
    signature footer: both produce none, or both produce a block with the
    same heading, the same cells and cell geometry in every row, the same
    check boxes and the same photograph. *)
Theorem preview_block_matches_document
  (loaded : option FormData) (fd : FormData) (a : option ApplicantData) (n : Z) :
  option_map withoutFooter (Preview.renderApplicantForm loaded a n)
  = option_map withoutFooter (HtmlRenderer.renderApplicantFormHTML a n fd).
Proof.
  destruct status_values_non_empty as (H1 & H2 & H3).
  destruct a as [a|]; [|reflexivity].
  unfold Preview.renderApplicantForm, HtmlRenderer.renderApplicantFormHTML.
  destruct (negb (truthy (name a)) && (1 <? n)%Z)%bool; [reflexivity|].
  unfold option_map, withoutFooter.
  cbn [blockNumber heading titleNameRow sonWifeDaughterOfRow nationalityRow ageRow
       dobRow professionRow aadhaarRow residentialBoxes panRow itWardRows
       addressRows telNoRow mobileRow emailRow photo footer].
  rewrite (field_is_streq (residentialStatus a) H1),
          (field_is_streq (residentialStatus a) H2),
          (field_is_streq (residentialStatus a) H3).
  reflexivity.
Qed.

(** X6.  The two document renderers produce a block for the same inputs;
    their blocks have the same heading, check boxes, photograph and footer
    and the same cell contents in every row below the first.  The first row
    differs: the second renderer shows the trimmed name alone in 15 cells,
    the first the trimmed title and name in 20. *)
Theorem document_renderers_agree_below_title
  (fd : FormData) (a : ApplicantData) (n : Z) :
  (HtmlRendererCompact.renderApplicantFormHTML (Some a) n fd = None
   <-> HtmlRenderer.renderApplicantFormHTML (Some a) n fd = None)
  /\ (forall c d,
        HtmlRendererCompact.renderApplicantFormHTML (Some a) n fd = Some c ->
        HtmlRenderer.renderApplicantFormHTML (Some a) n fd = Some d ->
        map (@cells) (rowsAfterTitle c) = map (@cells) (rowsAfterTitle d)
        /\ heading c = heading d
        /\ residentialBoxes c = residentialBoxes d
        /\ photo c = photo d
        /\ footer c = footer d
        /\ readBack [titleNameRow c] = firstn 15 (trim (orEmpty (name a)))
        /\ readBack [titleNameRow d]
           = firstn 20 (trim (orEmpty (title a) ++ lit " " ++ orEmpty (name a)))).
Proof.
  split.
  - rewrite (block_gate CompactDocumentBackend fd a n),
            (block_gate DocumentBackend fd a n). reflexivity.
  - intros c d Hc Hd.
    unfold HtmlRendererCompact.renderApplicantFormHTML in Hc.
    unfold HtmlRenderer.renderApplicantFormHTML in Hd.
    destruct (negb (truthy (name a)) && (1 <? n)%Z)%bool; [discriminate|].
    injection Hc as <-. injection Hd as <-.
    repeat split; cbn [titleNameRow].
    + etransitivity;
        [exact (readBack_one CompactDocumentBackend
                  (Some (trim (orEmpty (name a)))) 15 _)
        | now rewrite orEmpty_Some].
    + etransitivity;
        [exact (readBack_one DocumentBackend
                  (Some (trim (orEmpty (title a) ++ lit " " ++ orEmpty (name a)))) 20 _)
        | now rewrite orEmpty_Some].
Qed.

Lemma document_renderers_agree_below_title_witness :
  exists c d,
    HtmlRendererCompact.renderApplicantFormHTML (Some (named "Asha Rao")) 1
      (formOf [named "Asha Rao"]) = Some c
    /\ HtmlRenderer.renderApplicantFormHTML (Some (named "Asha Rao")) 1
         (formOf [named "Asha Rao"]) = Some d
    /\ map (@cells) (rowsAfterTitle c) = map (@cells) (rowsAfterTitle d).
Proof.
  eexists. eexists. split; [reflexivity|]. split; [reflexivity|].
  exact (proj1 (proj2 (document_renderers_agree_below_title
                         (formOf [named "Asha Rao"]) (named "Asha Rao") 1)
                  _ _ eq_refl eq_refl)).
Defined.

Lemma multiLineRows_cells_length (b : Backend) (c r : nat) (v : field) :
  Forall (fun row => length (cells row) = c) (multiLineRows b c r v).
Proof.
  apply Forall_forall. intros row Hrow.
  apply multiLineRows_row in Hrow as (line & _ & ->). apply cells_length.
Qed.

(** X7.  Whatever the data, an applicant block has 16 rows of cells: the
    title row, seven single rows, two rows for the tax ward, three for the
    address and three more single rows; every row has 20 cells, except the
    title row of the second document renderer, which has 15. *)
Theorem block_shape
  (b : Backend) (fd : FormData) (a : ApplicantData) (n : Z) (block : ApplicantBlock) :
  applicantBlock b fd (Some a) n = Some block ->
  length (allRows block) = 16
  /\ length (itWardRows block) = 2
  /\ length (addressRows block) = 3
  /\ Forall (fun row => length (cells row) = 20) (rowsAfterTitle block)
  /\ length (cells (titleNameRow block))
     = match b with CompactDocumentBackend => 15 | _ => 20 end.
Proof.
  intros H. destruct (block_multi_line_rows _ _ _ _ H) as [Hw Ha].
  assert (Hrows : Forall (fun row => length (cells row) = 20)
                    (itWardRows block ++ addressRows block)).
  { rewrite Hw, Ha. apply Forall_app. split; apply multiLineRows_cells_length. }
  apply Forall_app in Hrows as [Hrw Hra].
  assert (Hlw : length (itWardRows block) = 2)
    by (rewrite Hw; apply array_from_length).
  assert (Hla : length (addressRows block) = 3)
    by (rewrite Ha; apply array_from_length).
  split.
  { unfold allRows, rowsAfterTitle. simpl length. rewrite !length_app, Hlw, Hla.
    reflexivity. }
  split; [exact Hlw|]. split; [exact Hla|].
  split.
  - unfold rowsAfterTitle. apply Forall_app. split; [|apply Forall_app; split;
      [exact Hrw | apply Forall_app; split; [exact Hra|]]].
    + block_inv b a n H; repeat constructor.
    + block_inv b a n H; repeat constructor.
  - block_inv b a n H;
      [ apply (cells_length PreviewBackend)
      | apply (cells_length DocumentBackend)
      | apply (cells_length CompactDocumentBackend) ].
Qed.

Lemma block_shape_witness :
  exists block,
    applicantBlock CompactDocumentBackend (formOf [named "Asha Rao"])
      (Some (named "Asha Rao")) 1 = Some block
    /\ length (allRows block) = 16
    /\ length (cells (titleNameRow block)) = 15.
Proof.
  eexists. split; [reflexivity|].
  pose proof (@block_shape CompactDocumentBackend (formOf [named "Asha Rao"])
                (named "Asha Rao") 1 _ eq_refl) as (H16 & _ & _ & _ & Ht).
  split; [exact H16 | exact Ht].
Defined.

(** ** The widths the preview computes *)

Lemma preview_row_width (v : field) (w : Q) :
  rowWidth (Preview.renderCharacterBoxes v 20 w)
  = Some ((w + (3 # 2) * 2) * inject_Z (Z.of_nat 20))%Q.
Proof. reflexivity. Qed.

Lemma preview_rows_are_boxes
  (loaded : option FormData) (a : ApplicantData) (n : Z) (block : ApplicantBlock)
  (row : CharacterBoxes) :
  Preview.renderApplicantForm loaded (Some a) n = Some block ->
  In row (allRows block) ->
  exists v, row = Preview.renderCharacterBoxes v 20 20.
Proof.
  intros H Hrow. unfold Preview.renderApplicantForm in H.
  destruct (negb (truthy (name a)) && (1 <? n)%Z)%bool; [discriminate|].
  injection H as <-.
  unfold allRows, rowsAfterTitle, Preview.multiLineRows, array_from in Hrow.
  cbn [titleNameRow sonWifeDaughterOfRow nationalityRow ageRow dobRow professionRow
       aadhaarRow panRow itWardRows addressRows telNoRow mobileRow emailRow
       seq map app] in Hrow.
  repeat (destruct Hrow as [<- | Hrow]; [eexists; reflexivity|]).
  destruct Hrow.
Qed.

(** X8.  The preview computes 261px as the width available to a row of
    cells and 10px as the box width that fits it (20 boxes of 10px with 3px
    of border each take 260px, and 11px would not fit), but renders every
    row of an applicant block with boxes of 20px: each row is given 460px,
    more than the 261px available, and with its label and gap (625px) more
    than the 426px column and the 612px container. *)
Theorem preview_rows_exceed_available_width
  (loaded : option FormData) (a : ApplicantData) (n : Z) (block : ApplicantBlock)
  (row : CharacterBoxes) :
  Preview.renderApplicantForm loaded (Some a) n = Some block ->
  In row (allRows block) ->
  (exists w, rowWidth row = Some w
             /\ (w == 460)%Q
             /\ (PreviewLayout.AVAILABLE_BOX_WIDTH < w)%Q
             /\ (PreviewLayout.fieldsColumnMaxWidth
                 < PreviewLayout.LABEL_WIDTH + PreviewLayout.FIELD_GAP + w)%Q
             /\ (PreviewLayout.CONTAINER_WIDTH
                 < PreviewLayout.LABEL_WIDTH + PreviewLayout.FIELD_GAP + w)%Q)
  /\ cellWidth row = PreviewLayout.BOX_WIDTH
  /\ (PreviewLayout.AVAILABLE_BOX_WIDTH == 261)%Q
  /\ (PreviewLayout.CALCULATED_BOX_WIDTH == 10)%Q
  /\ ((PreviewLayout.CALCULATED_BOX_WIDTH + PreviewLayout.BOX_BORDER_TOTAL)
      * PreviewLayout.BOXES_PER_FIELD <= PreviewLayout.AVAILABLE_BOX_WIDTH)%Q
  /\ (PreviewLayout.AVAILABLE_BOX_WIDTH
      < (PreviewLayout.CALCULATED_BOX_WIDTH + 1 + PreviewLayout.BOX_BORDER_TOTAL)
        * PreviewLayout.BOXES_PER_FIELD)%Q.
Proof.
  intros H Hrow.
  destruct (preview_rows_are_boxes _ _ _ H Hrow) as [v ->].
  split.
  - eexists. split; [apply preview_row_width|].
    repeat split; vm_compute; reflexivity.
  - split; [reflexivity|]. repeat split; vm_compute; try reflexivity; discriminate.
Qed.

Lemma preview_rows_exceed_available_width_witness :
  exists block w,
    Preview.renderApplicantForm None (Some (named "Asha Rao")) 1 = Some block
    /\ rowWidth (nationalityRow block) = Some w
    /\ (PreviewLayout.AVAILABLE_BOX_WIDTH < w)%Q.
Proof.
  eexists.
  destruct (proj1 (@preview_rows_exceed_available_width None (named "Asha Rao") 1 _
                     (Preview.renderCharacterBoxes (Some []) 20 20) eq_refl
                     ltac:(right; right; left; reflexivity)))
    as (w & Hw & _ & Hlt & _).
  exists w. split; [reflexivity|]. split; [exact Hw | exact Hlt].
Defined.

(** ** Headings and pages *)

Lemma gate_open_for_named (a : ApplicantData) (n : Z) :
  truthy (name a) = true ->
  (negb (truthy (name a)) && (1 <? n)%Z)%bool = false.
Proof. intros ->. reflexivity. Qed.

(** X9.  The block of applicant number 1 is produced for every record that
    is present, also one without a name, and is headed as the sole or first
    applicant; a block with any other number [n] is headed as joint
    applicant [n - 1], and with [n > 1] it is only produced for a record
    with a name. *)
Theorem primary_block_always_rendered
  (b : Backend) (fd : FormData) (a : ApplicantData) :
  (exists block,
      applicantBlock b fd (Some a) 1 = Some block
      /\ heading block = SoleOrFirstApplicant
      /\ blockNumber block = 1%Z)
  /\ (forall n block,
        applicantBlock b fd (Some a) n = Some block ->
        blockNumber block = n
        /\ (n <> 1%Z -> heading block = JointApplicant (n - 1))
        /\ ((1 < n)%Z -> truthy (name a) = true)).
Proof.
  split.
  - destruct b; unfold applicantBlock, Preview.renderApplicantForm,
      HtmlRenderer.renderApplicantFormHTML,
      HtmlRendererCompact.renderApplicantFormHTML;
      change (1 <? 1)%Z with false; rewrite andb_false_r;
      eexists; (split; [reflexivity|]); split; reflexivity.
  - intros n block H.
    assert (Hopen : (negb (truthy (name a)) && (1 <? n)%Z)%bool = false).
    { destruct (negb (truthy (name a)) && (1 <? n)%Z)%bool eqn:E; [|reflexivity].
      apply (block_gate b fd a n) in E. congruence. }
    assert (Hhead : blockNumber block = n /\ heading block = headingOf n).
    { block_inv b a n H; split; reflexivity. }
    destruct Hhead as [Hnum Hhead]. split; [exact Hnum|]. split.
    + intros Hn. rewrite Hhead. unfold headingOf.
      apply Z.eqb_neq in Hn. now rewrite Hn.
    + intros Hn. apply Z.ltb_lt in Hn. rewrite Hn, andb_true_r in Hopen.
      now apply negb_false_iff in Hopen.
Qed.

Lemma primary_block_always_rendered_witness :
  exists block,
    applicantBlock PreviewBackend (formOf [named "Asha"; named "Bob"])
      (Some (named "Bob")) 2 = Some block
    /\ heading block = JointApplicant 1.
Proof.
  eexists. split; [reflexivity|].
  exact (proj1 (proj2 (proj2 (primary_block_always_rendered PreviewBackend
           (formOf [named "Asha"; named "Bob"]) (named "Bob")) 2%Z _ eq_refl))
           ltac:(discriminate)).
Defined.

Lemma renderPage_5 (fd : FormData) (count : Z) :
  Preview.renderPage fd count 5
  = Preview.ApplicantPage
      (Preview.renderApplicantForm (Some fd) (applicant_at fd 0) 1).
Proof. reflexivity. Qed.

Lemma named_applicant (fd : FormData) (i : nat) :
  Preview.hasNamedApplicant fd i = true ->
  exists a, applicant_at fd i = Some a /\ truthy (name a) = true.
Proof.
  unfold Preview.hasNamedApplicant. destruct (applicant_at fd i) as [a|];
    [intros H; now exists a | discriminate].
Qed.

(** X10.  In the preview, page 5 shows the block of the first applicant
    whenever that record exists, headed as sole or first applicant and with
    the signature footer.  Page 6, when it is not omitted, shows a block
    (never an empty one) for the applicant at index 1, headed joint
    applicant 1 and without footer; page 7 likewise for index 2, headed
    joint applicant 2. *)
Theorem preview_applicant_pages (fd : FormData) (count : Z) :
  (forall a0, applicant_at fd 0 = Some a0 ->
     exists block,
       Preview.renderPage fd count 5 = Preview.ApplicantPage (Some block)
       /\ heading block = SoleOrFirstApplicant
       /\ footer block <> None)
  /\ (Preview.renderPage fd count 6 <> Preview.Omitted ->
      exists a1 block,
        applicant_at fd 1 = Some a1
        /\ Preview.renderPage fd count 6 = Preview.ApplicantPage (Some block)
        /\ Preview.renderApplicantForm (Some fd) (Some a1) 2 = Some block
        /\ heading block = JointApplicant 1
        /\ footer block = None)
  /\ (Preview.renderPage fd count 7 <> Preview.Omitted ->
      exists a2 block,
        applicant_at fd 2 = Some a2
        /\ Preview.renderPage fd count 7 = Preview.ApplicantPage (Some block)
        /\ Preview.renderApplicantForm (Some fd) (Some a2) 3 = Some block
        /\ heading block = JointApplicant 2
        /\ footer block = None).
Proof.
  split; [|split].
  - intros a0 H0. rewrite renderPage_5, H0.
    unfold Preview.renderApplicantForm.
    change (1 <? 1)%Z with false. rewrite andb_false_r.
    eexists. split; [reflexivity|]. split; [reflexivity | discriminate].
  - rewrite renderPage_6. intros H.
    destruct ((2 <=? count)%Z && Preview.hasNamedApplicant fd 1)%bool eqn:E;
      [|contradiction].
    apply andb_true_iff in E as [_ E].
    apply named_applicant in E as (a1 & Ha1 & Hname).
    assert (Hb : exists block,
               Preview.renderApplicantForm (Some fd) (Some a1) 2 = Some block
               /\ heading block = JointApplicant 1
               /\ footer block = None).
    { unfold Preview.renderApplicantForm.
      rewrite (gate_open_for_named a1 2 Hname).
      eexists. split; [reflexivity|]. split; reflexivity. }
    destruct Hb as (block & Hb & Hh & Hf).
    exists a1, block. rewrite Ha1, Hb. repeat split; assumption.
  - rewrite renderPage_7. intros H.
    destruct ((3 <=? count)%Z && Preview.hasNamedApplicant fd 2)%bool eqn:E;
      [|contradiction].
    apply andb_true_iff in E as [_ E].
    apply named_applicant in E as (a2 & Ha2 & Hname).
    assert (Hb : exists block,
               Preview.renderApplicantForm (Some fd) (Some a2) 3 = Some block
               /\ heading block = JointApplicant 2
               /\ footer block = None).
    { unfold Preview.renderApplicantForm.
      rewrite (gate_open_for_named a2 3 Hname).
      eexists. split; [reflexivity|]. split; reflexivity. }
    destruct Hb as (block & Hb & Hh & Hf).
    exists a2, block. rewrite Ha2, Hb. repeat split; assumption.
Qed.

Lemma preview_applicant_pages_witness :
  exists block,
    Preview.renderPage (formOf [named "Asha"; named "Bob"]) 2 6
    = Preview.ApplicantPage (Some block)
    /\ heading block = JointApplicant 1.
Proof.
  destruct (proj1 (proj2 (preview_applicant_pages
                            (formOf [named "Asha"; named "Bob"]) 2))
              ltac:(rewrite renderPage_6; simpl; discriminate))
    as (a1 & block & _ & Hpage & _ & Hhead & _).
  exists block. split; [exact Hpage | exact Hhead].
Defined.

(** ** The pages of the preview *)

Lemma renderPage_kind (fd : FormData) (count p : Z) :
  PreviewDocument.isStatic (Preview.renderPage fd count p)
  = ((p <? 5)%Z || (8 <? p)%Z)%bool
  /\ PreviewDocument.isApartment (Preview.renderPage fd count p) = (p =? 8)%Z
  /\ (PreviewDocument.isApplicant (Preview.renderPage fd count p) = true ->
      (5 <= p <= 7)%Z)
  /\ (p = 5%Z -> PreviewDocument.isApplicant (Preview.renderPage fd count p) = true).
Proof.
  unfold Preview.renderPage.
  destruct (p <? 5)%Z eqn:E4; [simpl; repeat split; try lia; discriminate|].
  destruct (p =? 5)%Z eqn:E5; [simpl; repeat split; try lia|].
  destruct (p =? 6)%Z eqn:E6.
  { destruct ((2 <=? count)%Z && Preview.hasNamedApplicant fd 1)%bool;
      simpl; repeat split; try lia; discriminate. }
  destruct (p =? 7)%Z eqn:E7.
  { destruct ((3 <=? count)%Z && Preview.hasNamedApplicant fd 2)%bool;
      simpl; repeat split; try lia; discriminate. }
  destruct (p =? 8)%Z eqn:E8; simpl; repeat split; try lia; discriminate.
Qed.

Lemma In_array_from (A : Type) (n : nat) (f : nat -> A) (x : A) :
  In x (array_from n f) <-> exists i, i < n /\ f i = x.
Proof.
  unfold array_from. rewrite in_map_iff. split.
  - intros (i & Hi & Hin). apply in_seq in Hin. exists i. split; [lia | exact Hi].
  - intros (i & Hi & Hx). exists i. split; [exact Hx | apply in_seq; lia].
Qed.

(** X11.  Once the PDF and the form data are loaded, the preview shows one
    entry per page of the PDF (nothing before).  The pages below 5 and above
    8 are the pages of the PDF, with their own numbers; the apartment block
    appears exactly when the PDF has at least 8 pages, and an applicant page
    exactly when it has at least 5: with a shorter PDF the form data is not
    shown. *)
Theorem preview_pages (fd : FormData) (count : Z) (numPages : nat) :
  length (PreviewDocument.renderPages true (Some fd) count numPages) = numPages
  /\ (existsb PreviewDocument.isApartment
        (PreviewDocument.renderPages true (Some fd) count numPages) = true
      <-> 8 <= numPages)
  /\ (existsb PreviewDocument.isApplicant
        (PreviewDocument.renderPages true (Some fd) count numPages) = true
      <-> 5 <= numPages)
  /\ (forall p,
        In (Preview.StaticPdfPage p)
           (PreviewDocument.renderPages true (Some fd) count numPages)
        <-> (1 <= p <= Z.of_nat numPages)%Z /\ (p < 5 \/ 8 < p)%Z)
  /\ PreviewDocument.renderPages false (Some fd) count numPages = []
  /\ PreviewDocument.renderPages true None count numPages = [].
Proof.
  unfold PreviewDocument.renderPages.
  split; [apply array_from_length|].
  split; [|split; [|split; [|split; reflexivity]]].
  - rewrite existsb_exists. split.
    + intros (pg & Hin & Hap). apply In_array_from in Hin as (i & Hi & <-).
      destruct (renderPage_kind fd count (Z.of_nat i + 1)) as (_ & Ha & _).
      rewrite Ha in Hap. lia.
    + intros Hn. exists (Preview.renderPage fd count 8). split.
      * apply In_array_from. exists 7. split; [lia | reflexivity].
      * reflexivity.
  - rewrite existsb_exists. split.
    + intros (pg & Hin & Hap). apply In_array_from in Hin as (i & Hi & <-).
      destruct (renderPage_kind fd count (Z.of_nat i + 1)) as (_ & _ & Ha & _).
      specialize (Ha Hap). lia.
    + intros Hn. exists (Preview.renderPage fd count 5). split.
      * apply In_array_from. exists 4. split; [lia | reflexivity].
      * reflexivity.
  - intros p. rewrite In_array_from. split.
    + intros (i & Hi & Hpage).
      destruct (renderPage_kind fd count (Z.of_nat i + 1)) as (Hs & _).
      rewrite Hpage in Hs. simpl in Hs.
      assert (Hp : p = (Z.of_nat i + 1)%Z).
      { unfold Preview.renderPage in Hpage.
        destruct (Z.of_nat i + 1 <? 5)%Z; [congruence|].
        destruct (Z.of_nat i + 1 =? 5)%Z; [discriminate|].
        destruct (Z.of_nat i + 1 =? 6)%Z;
          [destruct ((2 <=? count)%Z && Preview.hasNamedApplicant fd 1)%bool;
           discriminate|].
        destruct (Z.of_nat i + 1 =? 7)%Z;
          [destruct ((3 <=? count)%Z && Preview.hasNamedApplicant fd 2)%bool;
           discriminate|].
        destruct (Z.of_nat i + 1 =? 8)%Z; [discriminate | congruence]. }
      lia.
    + intros [Hrange Hout]. exists (Z.to_nat (p - 1)). split; [lia|].
      replace (Z.of_nat (Z.to_nat (p - 1)) + 1)%Z with p by lia.
      unfold Preview.renderPage.
      destruct (p <? 5)%Z eqn:E4; [reflexivity|].
      destruct (p =? 5)%Z eqn:E5; [lia|].
      destruct (p =? 6)%Z eqn:E6; [lia|].
      destruct (p =? 7)%Z eqn:E7; [lia|].
      destruct (p =? 8)%Z eqn:E8; [lia | reflexivity].
Qed.

(** ** The signature footer in detail *)

(** X12.  The footer of the document renderers shows exactly the
    signatures that are present among the first two applicants, the first
    applicant's first: one slot per signature, each with its image and never
    a placeholder, so one or two slots; both renderers show the same
    slots. *)
Theorem document_footer_slots (fd : FormData) :
  (forall f,
     HtmlRenderer.renderSignatureFooterHTML fd = Some f ->
     slotSources f = presentSignatures fd
     /\ length f = signatureCount fd
     /\ forallb isImageSlot f = true
     /\ 1 <= length f <= 2)
  /\ (HtmlRenderer.renderSignatureFooterHTML fd = None -> presentSignatures fd = [])
  /\ HtmlRendererCompact.renderSignatureFooterHTML fd
     = HtmlRenderer.renderSignatureFooterHTML fd.
Proof.
  split; [|split; [|reflexivity]].
  - intros f. unfold HtmlRenderer.renderSignatureFooterHTML, presentSignatures,
      signatureCount.
    destruct (signature_at fd 0) as [[|x s]|], (signature_at fd 1) as [[|y t]|];
      simpl; intros H; try discriminate H; injection H as <-;
      simpl; repeat split; lia.
  - unfold HtmlRenderer.renderSignatureFooterHTML, presentSignatures.
    destruct (signature_at fd 0) as [[|x s]|], (signature_at fd 1) as [[|y t]|];
      simpl; intros H; try discriminate H; reflexivity.
Qed.

Lemma document_footer_slots_witness :
  exists f,
    HtmlRenderer.renderSignatureFooterHTML
      (formOf [named "Asha"; withSignature (Some (lit "data:sig2")) noApplicant])
    = Some f
    /\ slotSources f = [lit "data:sig2"]
    /\ length f = 1.
Proof.
  eexists. split; [reflexivity|].
  destruct (proj1 (document_footer_slots
                     (formOf [named "Asha";
                              withSignature (Some (lit "data:sig2")) noApplicant]))
              _ eq_refl) as (Hs & Hl & _).
  split; [exact Hs | exact Hl].
Defined.

(** X13.  On page 5 the preview footer always has two slots, the first for
    the first applicant and the second for the applicant at index 1; a slot
    shows the signature when it is present and its placeholder text when it
    is not, so the images it shows are the ones the document footer shows. *)
Theorem preview_footer_slots (fd : FormData) (count : Z) (a0 : ApplicantData) :
  applicant_at fd 0 = Some a0 ->
  exists block s1 s2,
    Preview.renderPage fd count 5 = Preview.ApplicantPage (Some block)
    /\ footer block = Some [s1; s2]
    /\ slotSources [s1; s2] = presentSignatures fd
    /\ (truthy (signature a0) = false -> s1 = SlotPlaceholder "Sole/First Applicant")
    /\ (truthy (signature_at fd 1) = false ->
        s2 = SlotPlaceholder "Second Applicant, if any").
Proof.
  intros H0. rewrite renderPage_5, H0. unfold Preview.renderApplicantForm.
  change (1 <? 1)%Z with false. rewrite andb_false_r.
  eexists. eexists. eexists. split; [reflexivity|]. cbn [footer].
  change (1 =? 1)%Z with true. cbv iota. split; [reflexivity|].
  unfold presentSignatures. unfold signature_at at 3 4. rewrite H0.
  destruct (signature a0) as [[|x s]|], (signature_at fd 1) as [[|y t]|];
    simpl; repeat split; try reflexivity; discriminate.
Qed.

Lemma preview_footer_slots_witness :
  exists block s1 s2,
    Preview.renderPage
      (formOf [withSignature (Some (lit "data:sig1")) (named "Asha")]) 1 5
    = Preview.ApplicantPage (Some block)
    /\ footer block = Some [s1; s2]
    /\ slotSources [s1; s2] = [lit "data:sig1"]
    /\ s2 = SlotPlaceholder "Second Applicant, if any".
Proof.
  destruct (@preview_footer_slots
              (formOf [withSignature (Some (lit "data:sig1")) (named "Asha")]) 1
              (withSignature (Some (lit "data:sig1")) (named "Asha")) eq_refl)
    as (block & s1 & s2 & Hpage & Hfooter & Hsrc & _ & H2).
  exists block, s1, s2. split; [exact Hpage|]. split; [exact Hfooter|].
  split; [exact Hsrc | exact (H2 eq_refl)].
Defined.

(** ** The apartment block in the preview and in the document *)

Lemma preview_read (x : jsstring) (n : nat) (w : Q) :
  readBack [Preview.renderCharacterBoxes (Some x) n w] = firstn n x.
Proof.
  etransitivity; [exact (readBack_one PreviewBackend (Some x) n w)|].
  now rewrite orEmpty_Some.
Qed.

(** X14.  The cells of the preview's apartment block spell the texts the
    document renderers put in their value fields, cut to the cells of the
    field: 15 characters for tower, apartment number, floor and the two
    prices, 10 for the two carpet areas and the date, 25 for the place.
    The unit type the preview computes always fits its 10 cells.  The two
    document renderers show the same texts. *)
Theorem apartment_preview_shows_document_texts (fd : FormData) :
  exists ap,
    Preview.renderApartmentForm (Some fd) = Some ap
    /\ readBack [towerCells ap] = firstn 15 (towerText (HtmlRenderer.renderApartmentFormHTML fd))
    /\ readBack [apartmentNumberCells ap]
       = firstn 15 (apartmentNumberText (HtmlRenderer.renderApartmentFormHTML fd))
    /\ readBack [floorCells ap] = firstn 15 (floorText (HtmlRenderer.renderApartmentFormHTML fd))
    /\ readBack [carpetAreaSqmCells ap]
       = firstn 10 (carpetAreaSqmText (HtmlRenderer.renderApartmentFormHTML fd))
    /\ readBack [carpetAreaSqftCells ap]
       = firstn 10 (carpetAreaSqftText (HtmlRenderer.renderApartmentFormHTML fd))
    /\ readBack [unitPriceCells ap]
       = firstn 15 (unitPriceText (HtmlRenderer.renderApartmentFormHTML fd))
    /\ readBack [totalPriceCells ap]
       = firstn 15 (totalPriceText (HtmlRenderer.renderApartmentFormHTML fd))
    /\ readBack [declarationDateCells ap]
       = firstn 10 (declarationDateText (HtmlRenderer.renderApartmentFormHTML fd))
    /\ readBack [declarationPlaceCells ap]
       = firstn 25 (declarationPlaceText (HtmlRenderer.renderApartmentFormHTML fd))
    /\ readBack [typeCells ap] = Preview.bhkTypeDisplay fd
    /\ HtmlRendererCompact.renderApartmentFormHTML fd
       = HtmlRenderer.renderApartmentFormHTML fd.
Proof.
  eexists. split; [reflexivity|].
  cbn [towerCells apartmentNumberCells floorCells carpetAreaSqmCells
       carpetAreaSqftCells unitPriceCells totalPriceCells declarationDateCells
       declarationPlaceCells typeCells].
  repeat (split; [apply preview_read|]).
  split; [|reflexivity].
  rewrite preview_read. apply firstn_all2.
  unfold Preview.bhkTypeDisplay.
  destruct (truthy (bhkType fd)); [|simpl; lia].
  destruct (field_is (bhkType fd) (lit "3bhk")); simpl; lia.
Qed.

(** X15.  Cleaning a price that is already clean changes nothing; the
    cleaned price is never longer than the stored one, and it is as long
    only when the stored one has no rupee sign and no comma; a missing price
    is shown as the empty text. *)
Theorem price_cleaning_is_idempotent (v : field) :
  Preview.priceClean (Some (Preview.priceClean v)) = Preview.priceClean v
  /\ length (Preview.priceClean v) <= length (orEmpty v)
  /\ (length (Preview.priceClean v) = length (orEmpty v) ->
      Preview.priceClean v = orEmpty v)
  /\ Preview.priceClean None = []
  /\ (forall fd,
        HtmlRenderer.unitPriceClean fd = Preview.priceClean (unitPrice fd)
        /\ HtmlRenderer.totalPriceClean fd = Preview.priceClean (totalPrice fd)).
Proof.
  assert (Hp : forall u, Preview.priceClean u = replace_rupee_comma (orEmpty u)).
  { intros u. unfold Preview.priceClean. apply priceClean_orEmpty. }
  split; [|split; [|split; [|split; [reflexivity | split; reflexivity]]]].
  - rewrite !Hp, orEmpty_Some. apply replace_keeps_others, replace_removes_all.
  - rewrite Hp. apply filter_length_le.
  - rewrite Hp. intros H. apply replace_keeps_others.
    now apply filter_length_forallb.
Qed.

Lemma price_cleaning_is_idempotent_witness :
  Preview.priceClean (Some (lit "4500000.50")) = lit "4500000.50".
Proof.
  apply (proj1 (proj2 (proj2 (price_cleaning_is_idempotent (Some (lit "4500000.50")))))).
  reflexivity.
Defined.

(** ** The first row of an applicant block *)

Lemma trimStart_head (s : jsstring) :
  match trimStart s with
  | x :: _ => isWhiteSpace x = false
  | [] => True
  end.
Proof.
  induction s as [|c s IH]; simpl; [exact I|].
  destruct (isWhiteSpace c) eqn:E; [exact IH | exact E].
Qed.

Lemma trimStart_suffix (s : jsstring) : exists p, s = p ++ trimStart s.
Proof.
  induction s as [|c s [p IH]]; simpl; [now exists []|].
  destruct (isWhiteSpace c).
  - exists (c :: p). simpl. now f_equal.
  - now exists [].
Qed.

(** A trimmed string neither starts nor ends with white space. *)
Lemma trim_ends (s : jsstring) :
  match trim s with
  | x :: _ => isWhiteSpace x = false
  | [] => True
  end
  /\ match rev (trim s) with
     | x :: _ => isWhiteSpace x = false
     | [] => True
     end.
Proof.
  unfold trim. split.
  - destruct (trimStart_suffix (rev (trimStart s))) as [p Hp].
    apply (f_equal (@rev codeunit)) in Hp.
    rewrite rev_involutive, rev_app_distr in Hp.
    pose proof (trimStart_head s) as Hh. rewrite Hp in Hh.
    destruct (rev (trimStart (rev (trimStart s)))) as [|x t]; [exact I | exact Hh].
  - rewrite rev_involutive. apply trimStart_head.
Qed.

Lemma trim_after_space (s : jsstring) : trim (lit " " ++ s) = trim s.
Proof. reflexivity. Qed.

Lemma title_text (b : Backend) (fd : FormData) (a : ApplicantData) (n : Z)
  (block : ApplicantBlock) :
  applicantBlock b fd (Some a) n = Some block ->
  titleNameRow block
  = match b with
    | CompactDocumentBackend =>
        characterBoxes b (Some (trim (orEmpty (name a)))) 15 20
    | _ =>
        characterBoxes b
          (Some (trim (orEmpty (title a) ++ lit " " ++ orEmpty (name a)))) 20 20
    end.
Proof. intros H. block_inv b a n H; reflexivity. Qed.

(** X16.  The first row of an applicant block never starts with a
    white-space character.  When the title is missing it shows the trimmed
    name (its first 20 characters, 15 in the second document renderer); when
    the name is missing too, every cell of the row is empty. *)
Theorem title_row_is_trimmed
  (b : Backend) (fd : FormData) (a : ApplicantData) (n : Z) (block : ApplicantBlock) :
  applicantBlock b fd (Some a) n = Some block ->
  match readBack [titleNameRow block] with
  | x :: _ => isWhiteSpace x = false
  | [] => True
  end
  /\ (truthy (title a) = false ->
      readBack [titleNameRow block]
      = firstn (match b with CompactDocumentBackend => 15 | _ => 20 end)
          (trim (orEmpty (name a))))
  /\ (truthy (title a) = false -> truthy (name a) = false ->
      cells (titleNameRow block)
      = blankCells (match b with CompactDocumentBackend => 15 | _ => 20 end)).
Proof.
  intros H. rewrite (title_text _ _ _ _ H).
  assert (Hhead : forall (s : jsstring) (k : nat),
            match firstn (S k) (trim s) with
            | x :: _ => isWhiteSpace x = false
            | [] => True
            end).
  { intros s k. pose proof (proj1 (trim_ends s)) as Ht.
    destruct (trim s); [exact I | exact Ht]. }
  assert (Hno : forall v : field, truthy v = false -> orEmpty v = []).
  { intros [[|x s]|]; simpl; congruence. }
  split; [|split].
  - destruct b; rewrite readBack_one, orEmpty_Some; apply Hhead.
  - intros Ht. destruct b; rewrite readBack_one, orEmpty_Some;
      try (rewrite (Hno _ Ht)); reflexivity.
  - intros Ht Hn. destruct b; rewrite cells_characterBoxes, orEmpty_Some;
      try (rewrite (Hno _ Ht)); rewrite (Hno _ Hn); reflexivity.
Qed.

Lemma title_row_is_trimmed_witness :
  exists block,
    applicantBlock DocumentBackend (formOf [named "  Asha Rao "])
      (Some (named "  Asha Rao ")) 1 = Some block
    /\ readBack [titleNameRow block] = firstn 20 (trim (lit "  Asha Rao ")).
Proof.
  eexists. split; [reflexivity|].
  exact (proj1 (proj2 (@title_row_is_trimmed DocumentBackend
                         (formOf [named "  Asha Rao "]) (named "  Asha Rao ") 1 _
                         eq_refl)) eq_refl).
Defined.

(** ** The applicant count the preview keeps *)

(** X17.  The applicant count the preview keeps is never 0: a stored count
    other than 0 is kept as it is, a missing count or 0 becomes 1.  With a
    missing count, 0 or 1 the preview therefore omits pages 6 and 7 whatever
    names the form data holds, and with 2 it omits page 7. *)
Theorem loaded_applicant_count (stored : option Z) (fd : FormData) :
  Preview.loadedApplicantCount stored <> 0%Z
  /\ (forall z, stored = Some z -> z <> 0%Z -> Preview.loadedApplicantCount stored = z)
  /\ (stored = None \/ stored = Some 0%Z \/ stored = Some 1%Z ->
      Preview.loadedApplicantCount stored = 1%Z
      /\ Preview.renderPage fd (Preview.loadedApplicantCount stored) 6 = Preview.Omitted
      /\ Preview.renderPage fd (Preview.loadedApplicantCount stored) 7 = Preview.Omitted)
  /\ (stored = Some 2%Z ->
      Preview.renderPage fd (Preview.loadedApplicantCount stored) 7 = Preview.Omitted).
Proof.
  split; [|split; [|split]].
  - destruct stored as [[|p|p]|]; simpl; discriminate.
  - intros z -> Hz. destruct z; [contradiction | reflexivity | reflexivity].
  - intros [-> | [-> | ->]]; repeat split.
  - intros ->. reflexivity.
Qed.

Lemma loaded_applicant_count_witness :
  Preview.renderPage (formOf [named "Asha"; named "Bob"; named "Chitra"])
    (Preview.loadedApplicantCount None) 6 = Preview.Omitted
  /\ Preview.loadedApplicantCount (Some 3%Z) = 3%Z.
Proof.
  split.
  - exact (proj1 (proj2 (proj1 (proj2 (proj2
             (loaded_applicant_count None
                (formOf [named "Asha"; named "Bob"; named "Chitra"]))))
             (or_introl eq_refl)))).
  - exact (proj1 (proj2 (loaded_applicant_count (Some 3%Z) (formOf [])))
             3%Z eq_refl ltac:(discriminate)).
Defined.

(** ** The PDF viewer *)

Lemma shown_pages (g : nat -> bool) (l : list nat) :
  PdfViewer.shown
    (map (fun index => if g (index + 1) then None else Some (index + 1)) l)
  = filter (fun p => negb (g p)) (map S l).
Proof.
  induction l as [|i l IH]; [reflexivity|].
  simpl. rewrite Nat.add_1_r. destruct (g (S i)); simpl; now rewrite IH.
Qed.

Lemma filter_none (A : Type) (f : A -> bool) (l : list A) :
  (forall x, In x l -> f x = false) -> filter f l = [].
Proof.
  induction l as [|x l IH]; [reflexivity|]. intros H. simpl.
  rewrite (H x (or_introl eq_refl)). apply IH. intros y Hy. apply H. now right.
Qed.

(** X18.  The PDF viewer produces one entry per page of the PDF.  Showing
    only the fillable pages, it shows exactly the pages listed as fillable,
    in the order of the PDF (pages 5 to 8 by default, when the PDF has at
    least 8 pages); otherwise it shows every page.  A page is never wider
    than 612px: its width is the width of the container when that is above
    0 and at most 612, and 612 when the container is wider than 612, has
    width 0 or is not measured. *)
Theorem pdf_viewer_pages (fillablePages : list nat) (numPages : nat) :
  (forall only, length (PdfViewer.pages fillablePages only numPages) = numPages)
  /\ PdfViewer.shown (PdfViewer.pages fillablePages true numPages)
     = filter (PdfViewer.isFillablePage fillablePages) (seq 1 numPages)
  /\ PdfViewer.shown (PdfViewer.pages fillablePages false numPages) = seq 1 numPages
  /\ (8 <= numPages ->
      PdfViewer.shown (PdfViewer.pages PdfViewer.defaultFillablePages true numPages)
      = [5; 6; 7; 8])
  /\ (forall cw, (PdfViewer.pageWidth cw <= 612)%Q)
  /\ (forall w, (0 < w)%Q -> (w <= 612)%Q -> (PdfViewer.pageWidth (Some w) == w)%Q)
  /\ (forall w, (612 < w)%Q -> (PdfViewer.pageWidth (Some w) == 612)%Q)
  /\ PdfViewer.pageWidth None = 612%Q
  /\ PdfViewer.pageWidth (Some 0%Q) = 612%Q.
Proof.
  assert (Htrue : forall fp n,
            PdfViewer.shown (PdfViewer.pages fp true n)
            = filter (PdfViewer.isFillablePage fp) (seq 1 n)).
  { intros fp n. unfold PdfViewer.pages, array_from.
    rewrite <- seq_shift.
    etransitivity;
      [exact (shown_pages (fun p => negb (PdfViewer.isFillablePage fp p)) (seq 0 n))|].
    apply filter_ext. intros p. apply negb_involutive. }
  split; [intros only; apply array_from_length|].
  split; [apply Htrue|]. split.
  { unfold PdfViewer.pages, array_from. rewrite <- seq_shift.
    etransitivity; [exact (shown_pages (fun _ => false) (seq 0 numPages))|].
    induction (map S (seq 0 numPages)) as [|x l IH]; [reflexivity|].
    cbn. f_equal. exact IH. }
  split.
  { intros Hn. rewrite Htrue.
    replace numPages with (8 + (numPages - 8)) by lia.
    rewrite seq_app, filter_app.
    rewrite (@filter_none nat _ (seq (1 + 8) (numPages - 8))).
    - reflexivity.
    - intros p Hp. apply in_seq in Hp.
      unfold PdfViewer.isFillablePage, PdfViewer.defaultFillablePages. simpl.
      destruct (Nat.eqb_spec p 5) as [Heq|_]; [lia|].
      destruct (Nat.eqb_spec p 6) as [Heq|_]; [lia|].
      destruct (Nat.eqb_spec p 7) as [Heq|_]; [lia|].
      destruct (Nat.eqb_spec p 8) as [Heq|_]; [lia|]. reflexivity. }
  split.
  { intros [w|]; simpl; [|apply Qle_refl].
    destruct (Qeq_bool w 0); [apply Qle_refl | apply Q.le_min_r]. }
  split.
  { intros w Hpos Hle. simpl.
    destruct (Qeq_bool w 0) eqn:E.
    - apply Qeq_bool_eq in E. rewrite E in Hpos. now apply Qlt_irrefl in Hpos.
    - now apply Q.min_l. }
  split.
  { intros w Hwide. simpl.
    destruct (Qeq_bool w 0); [reflexivity|].
    apply Q.min_r. now apply Qlt_le_weak. }
  split; reflexivity.
Qed.

Lemma pdf_viewer_pages_witness :
  PdfViewer.shown (PdfViewer.pages PdfViewer.defaultFillablePages true 12) = [5; 6; 7; 8]
  /\ (PdfViewer.pageWidth (Some 480%Q) == 480)%Q
  /\ (PdfViewer.pageWidth (Some 1000%Q) == 612)%Q.
Proof.
  pose proof (pdf_viewer_pages PdfViewer.defaultFillablePages 12)
    as (_ & _ & _ & H8 & _ & Hw & Hwide & _).
  split; [|split].
  - apply H8. lia.
  - apply Hw; [unfold Qlt | unfold Qle]; simpl; lia.
  - apply Hwide. unfold Qlt. simpl. lia.
Defined.

(** ** The page buttons of the admin dashboard *)







(** ** The form-data route and what the preview makes of its answer *)

(** X20.  The form-data route answers 200, 404 or 500.  It answers 200
    exactly when the database connects, the application is found and its
    stored form data parses, and the body then holds the parsed form data
    with the stored applicant count and unit type; it answers 404 exactly
    when the database connects and the lookup finds no application; every
    failure of a collaborator gives 500.  Only a 200 body holds form data,
    and only a 404 or 500 body holds an error message. *)
Theorem form_data_route_status (Json : Type)
  (connectDB : FormDataRoute.Outcome unit)
  (findById : jsstring -> FormDataRoute.Outcome (option FormDataRoute.Stored))
  (JSON_parse : jsstring -> FormDataRoute.Outcome Json)
  (id : jsstring) :
  let r := FormDataRoute.GET connectDB findById JSON_parse id in
  (FormDataRoute.status r = 200 \/ FormDataRoute.status r = 404
   \/ FormDataRoute.status r = 500)%Z
  /\ (FormDataRoute.status r = 200%Z
      <-> exists u application parsed,
            connectDB = FormDataRoute.Returns u
            /\ findById id = FormDataRoute.Returns (Some application)
            /\ JSON_parse (FormDataRoute.storedFormData application)
               = FormDataRoute.Returns parsed
            /\ FormDataRoute.bodyFormData (FormDataRoute.body r) = Some parsed
            /\ FormDataRoute.bodyApplicantCount (FormDataRoute.body r)
               = Some (FormDataRoute.storedApplicantCount application)
            /\ FormDataRoute.bodyBhkType (FormDataRoute.body r)
               = FormDataRoute.storedBhkType application)
  /\ (FormDataRoute.status r = 404%Z
      <-> exists u, connectDB = FormDataRoute.Returns u
                    /\ findById id = FormDataRoute.Returns None)
  /\ (FormDataRoute.bodyFormData (FormDataRoute.body r) <> None
      -> FormDataRoute.status r = 200%Z)
  /\ (FormDataRoute.bodyError (FormDataRoute.body r) <> None
      <-> FormDataRoute.status r <> 200%Z).
Proof.
  cbv zeta. unfold FormDataRoute.GET.
  destruct connectDB as [|u];
    [|destruct (findById id) as [|[application|]] eqn:Ef;
      [|destruct (JSON_parse (FormDataRoute.storedFormData application))
          as [|parsed] eqn:Ep|]];
    simpl.
  all: repeat split; intros;
    repeat match goal with
           | H : exists _, _ |- _ => destruct H
           | H : _ /\ _ |- _ => destruct H
           end;
    try discriminate; try congruence; auto.
  all: try (exfalso; congruence).
  - exists u, application, parsed. repeat split. exact Ep.
  - now exists u.
Qed.

(** X21.  The preview reads the body of the form-data response without
    looking at its status.  After a 404 or 500 answer it keeps no form data
    and an applicant count of 1, shows no page at all and sets no error
    message; after a 200 answer it shows the pages for the parsed form data
    with the stored applicant count (1 when that count is 0). *)
Theorem preview_after_form_data_response
  (connectDB : FormDataRoute.Outcome unit)
  (findById : jsstring -> FormDataRoute.Outcome (option FormDataRoute.Stored))
  (JSON_parse : jsstring -> FormDataRoute.Outcome FormData)
  (id : jsstring) (numPages : nat) :
  let r := FormDataRoute.GET connectDB findById JSON_parse id in
  let st := PreviewLoad.afterLoad (FormDataRoute.body r) in
  PreviewLoad.error st = None
  /\ PreviewLoad.loading st = false
  /\ (FormDataRoute.status r <> 200%Z ->
      PreviewLoad.formData st = None
      /\ PreviewLoad.applicantCount st = 1%Z
      /\ PreviewLoad.pagesShown st numPages = [])
  /\ (forall application parsed,
        findById id = FormDataRoute.Returns (Some application) ->
        JSON_parse (FormDataRoute.storedFormData application)
        = FormDataRoute.Returns parsed ->
        FormDataRoute.status r = 200%Z ->
        PreviewLoad.pagesShown st numPages
        = PreviewDocument.renderPages true (Some parsed)
            (Preview.loadedApplicantCount
               (Some (FormDataRoute.storedApplicantCount application)))
            numPages
        /\ length (PreviewLoad.pagesShown st numPages) = numPages).
Proof.
  cbv zeta. split; [reflexivity|]. split; [reflexivity|].
  unfold FormDataRoute.GET. split.
  - destruct connectDB as [|u]; [intros _; repeat split|].
    destruct (findById id) as [|[application|]]; [intros _; repeat split| |intros _; repeat split].
    destruct (JSON_parse (FormDataRoute.storedFormData application));
      [intros _; repeat split | intros H; now contradiction H].
  - intros application parsed Hfind Hparse.
    destruct connectDB as [|u]; [intros H; discriminate H|].
    rewrite Hfind, Hparse. intros _.
    split; [reflexivity|]. apply array_from_length.
Qed.

Lemma preview_after_form_data_response_witness :
  PreviewLoad.pagesShown
    (PreviewLoad.afterLoad
       (FormDataRoute.body
          (FormDataRoute.GET (FormDataRoute.Returns tt)
             (fun _ => FormDataRoute.Returns None)
             (fun _ => @FormDataRoute.Throws FormData)
             (lit "65f0c0ffee"))))
    12
  = [].
Proof.
  apply (proj1 (proj2 (proj2 (@preview_after_form_data_response
           (FormDataRoute.Returns tt) (fun _ => FormDataRoute.Returns None)
           (fun _ => @FormDataRoute.Throws FormData) (lit "65f0c0ffee") 12)))).
  discriminate.
Defined.
